(** * video-dwd-cli: the validation and option-building layer of [download_vid.py]

    A shallow embedding of class [VideoDownloader] (src/download_vid.py) and
    of the parts of the Python run time it relies on: [str] methods,
    [os.path.splitext], [int], [pathlib] paths on a POSIX host, and the
    file-system calls it makes ([os.path.isfile], [Path.cwd], [Path.mkdir],
    [Path.absolute]).  [main] is embedded from the constructor call on.

    Conventions.
    - A Python [str] is a [string]; each character stands for the code point
      of the same number, so the model covers the strings whose code points
      are below 256.  [str.lower] is exact on that range.  The two characters
      beyond it that the program prints (U+2713 and U+2717) are written as
      their UTF-8 bytes.
    - [Optional[str]] is [option string]; Python truthiness ([x or d],
      [if x:]) is written out with [truthy] and [or_else].
    - A dict whose iteration order is observed ([PLATFORMS]) is an
      association list; the options dict handed to the library is a
      [gmap string ydl_value].
    - The constructor and [download] run in a small monad threading the
      world (file system, working directory, console) and raising Python
      exceptions.
    - Paths follow [pathlib.PurePosixPath].  The host is a tree of files and
      directories together with an oracle that may refuse to create a
      directory (permissions, name length, a read-only file system); the
      working directory may have been removed.  Symbolic links and search
      permissions on existing directories are outside the model. *)

From Stdlib Require Import ZArith Ascii String List Bool Lia.
From stdpp Require Import base option list strings pretty gmap fin_maps.

Local Open Scope string_scope.
Local Open Scope list_scope.

(* ===================================================================== *)
(** ** Python strings *)
(* ===================================================================== *)

Module PyStr.

(** [x or d] and [if x:] for an [Optional[str]]: [None] and [''] are falsy. *)
Definition truthy (o : option string) : bool :=
  match o with
  | Some s => negb (String.eqb s "")
  | None => false
  end.

Definition or_else (o : option string) (d : string) : string :=
  match o with
  | Some s => if String.eqb s "" then d else s
  | None => d
  end.

(** [str.lower] on code points below 256: A-Z, and the Latin-1 capitals
    U+00C0..U+00DE without the multiplication sign U+00D7. *)
Definition lower_char (c : ascii) : ascii :=
  let n := nat_of_ascii c in
  if (((65 <=? n) && (n <=? 90)) || ((192 <=? n) && (n <=? 222) && negb (n =? 215)))%nat
  then ascii_of_nat (n + 32)
  else c.

Fixpoint lower (s : string) : string :=
  match s with
  | EmptyString => EmptyString
  | String c r => String (lower_char c) (lower r)
  end.

(** [s.startswith(p)] and [s.startswith((p1, p2, ...))]. *)
Definition startswith (s p : string) : bool := String.prefix p s.

Definition startswith_any (s : string) (ps : list string) : bool :=
  existsb (startswith s) ps.

(** [needle in hay]. *)
Fixpoint contains (needle hay : string) : bool :=
  String.prefix needle hay ||
  match hay with
  | EmptyString => false
  | String _ r => contains needle r
  end.

(** [s.endswith(suf)]. *)
Definition endswith (s suf : string) : bool :=
  let n := String.length s in
  let k := String.length suf in
  (k <=? n)%nat && String.eqb (String.substring (n - k) k s) suf.

(** The string holds a NUL character. *)
Definition has_nul (s : string) : bool := contains (String (ascii_of_nat 0) EmptyString) s.

(** [sep.join(l)]. *)
Definition join (sep : string) (l : list string) : string := String.concat sep l.

(** [s.split(sep)] for a one-character separator. *)
Fixpoint split_on (sep : ascii) (s : string) : list string :=
  match s with
  | EmptyString => [EmptyString]
  | String c r =>
      if Ascii.eqb c sep then EmptyString :: split_on sep r
      else match split_on sep r with
           | [] => [String c EmptyString]
           | w :: ws => String c w :: ws
           end
  end.

(** [s.rfind(c)]: the last index of [c], [None] for Python's -1. *)
Fixpoint rfind_from (c : ascii) (s : string) (i : nat) (found : option nat) : option nat :=
  match s with
  | EmptyString => found
  | String d r => rfind_from c r (S i) (if Ascii.eqb d c then Some i else found)
  end.

Definition rfind (c : ascii) (s : string) : option nat := rfind_from c s 0 None.

(** The loop of [genericpath._splitext]: is there a character other than
    the dot in [p[filenameIndex:dotIndex]]? *)
Fixpoint splitext_scan (p : string) (filenameIndex steps : nat) : bool :=
  match steps with
  | O => false
  | S k =>
      match String.get filenameIndex p with
      | Some c => if Ascii.eqb c "." then splitext_scan p (S filenameIndex) k else true
      | None => true
      end
  end.

(** [os.path.splitext(p)] of [posixpath]: the extension starts at the last
    dot of the last component, leading dots of that component aside. *)
Definition splitext (p : string) : string * string :=
  let n := String.length p in
  let filenameIndex := match rfind "/" p with Some i => S i | None => 0 end in
  match rfind "." p with
  | Some dotIndex =>
      if (filenameIndex <=? dotIndex)%nat && splitext_scan p filenameIndex (dotIndex - filenameIndex)
      then (String.substring 0 dotIndex p, String.substring dotIndex (n - dotIndex) p)
      else (p, "")
  | None => (p, "")
  end.

(** [str.isspace] on code points below 256. *)
Definition is_space (c : ascii) : bool :=
  let n := nat_of_ascii c in
  (((9 <=? n) && (n <=? 13)) || ((28 <=? n) && (n <=? 32)) || (n =? 133) || (n =? 160))%nat.

Definition is_digit (c : ascii) : bool :=
  let n := nat_of_ascii c in ((48 <=? n) && (n <=? 57))%nat.

Fixpoint lstrip (l : list ascii) : list ascii :=
  match l with
  | c :: r => if is_space c then lstrip r else l
  | [] => []
  end.

Definition strip (l : list ascii) : list ascii := rev (lstrip (rev (lstrip l))).

(** Decimal digits with single underscores between them. *)
Fixpoint int_digits (acc : Z) (after_digit : bool) (l : list ascii) : option Z :=
  match l with
  | [] => if after_digit then Some acc else None
  | c :: r =>
      if is_digit c then int_digits (10 * acc + (Z.of_nat (nat_of_ascii c) - 48)) true r
      else if Ascii.eqb c "_" then (if after_digit then int_digits acc false r else None)
      else None
  end.

(** [int(s)] in base 10; [None] stands for [ValueError], which CPython also
    raises for more than 4300 digits. *)
Definition int (s : string) : option Z :=
  let l := strip (list_ascii_of_string s) in
  if (4300 <? List.length (List.filter is_digit l))%nat then None
  else match l with
       | "+"%char :: r => int_digits 0 false r
       | "-"%char :: r => option_map Z.opp (int_digits 0 false r)
       | _ => int_digits 0 false l
       end.

(** [str(n)] and the [{n}] of an f-string, for an [int]. *)
Definition str_of_int (n : Z) : string := pretty n.

End PyStr.

(* ===================================================================== *)
(** ** pathlib on a POSIX host *)
(* ===================================================================== *)

Module PosixPath.

(** The root of a path: none, one slash, or exactly two slashes (which
    POSIX lets an implementation treat specially and pathlib keeps). *)
Inductive root := NoRoot | Slash | TwoSlashes.

Record t := mk { p_root : root; p_parts : list string }.

Definition root_str (r : root) : string :=
  match r with NoRoot => "" | Slash => "/" | TwoSlashes => "//" end.

Definition parse_root (s : string) : root :=
  if String.prefix "///" s then Slash
  else if String.prefix "//" s then TwoSlashes
  else if String.prefix "/" s then Slash
  else NoRoot.

Definition is_name (c : string) : bool :=
  negb (String.eqb c "") && negb (String.eqb c ".").

(** Components: split at slashes, empty and [.] components dropped. *)
Definition components (s : string) : list string :=
  List.filter is_name (PyStr.split_on "/" s).

(** [Path(s)]. *)
Definition Path (s : string) : t :=
  {| p_root := parse_root s; p_parts := components s |}.

Definition is_absolute (p : t) : bool :=
  match p_root p with NoRoot => false | _ => true end.

(** [str(p)]. *)
Definition str (p : t) : string :=
  match p_root p, p_parts p with
  | NoRoot, [] => "."
  | r, parts => root_str r +:+ PyStr.join "/" parts
  end.

(** [p / q] for two paths, and [p / s] for a string. *)
Definition join (p q : t) : t :=
  if is_absolute q then q
  else {| p_root := p_root p; p_parts := p_parts p ++ p_parts q |}.

Definition truediv (p : t) (s : string) : t := join p (Path s).

(** [p.parent]; the parent of a path without components is itself. *)
Definition parent (p : t) : t :=
  {| p_root := p_root p; p_parts := removelast (p_parts p) |}.

End PosixPath.

Notation "p // s" := (PosixPath.truediv p s) (at level 40, left associativity).


(* ===================================================================== *)
(** ** The host: a tree of files and directories *)
(* ===================================================================== *)

Module OS.

Inductive node := File | Dir.
(** Error numbers: the ones this development names, and any other by its
    number. *)
Inductive errno :=
| ENOENT | EEXIST | ENOTDIR | EACCES | ENAMETOOLONG | EROFS | ENOSPC
| EOTHER (code : Z).

(** The error with the number [code], as [errno.h] of Linux counts. *)
Definition errno_of_code (code : Z) : errno :=
  match code with
  | 2 => ENOENT
  | 13 => EACCES
  | 17 => EEXIST
  | 20 => ENOTDIR
  | 28 => ENOSPC
  | 30 => EROFS
  | 36 => ENAMETOOLONG
  | _ => EOTHER code
  end%Z.

(** A tree maps resolved paths (component lists from the root) to nodes;
    the root itself, the empty list, is always a directory. *)
Definition lookup_node (tree : gmap (list string) node) (p : list string) : option node :=
  match p with
  | [] => Some Dir
  | _ => tree !! p
  end.

(** One step of path resolution from directory [d]. *)
Definition step (d : list string) (c : string) : list string :=
  if String.eqb c ".." then removelast d else d ++ [c].

(** Walk [parts] from [d]; every component has to be a directory. *)
Fixpoint walk (tree : gmap (list string) node) (d : list string) (parts : list string)
  : errno + list string :=
  match parts with
  | [] => inr d
  | c :: rest =>
      match lookup_node tree (step d c) with
      | Some Dir => walk tree (step d c) rest
      | Some File => inl ENOTDIR
      | None => inl ENOENT
      end
  end.

(** Resolution of a directory path from [start], the root or the working
    directory.  The process holds its working directory open, so [start]
    itself is not looked up: it resolves even after it has been removed. *)
Definition resolve (tree : gmap (list string) node) (start parts : list string)
  : errno + list string :=
  walk tree start parts.

(** [stat(2)] of the path [parts] taken from [start]. *)
Definition stat (tree : gmap (list string) node) (start parts : list string) : errno + node :=
  match resolve tree start (removelast parts) with
  | inl e => inl e
  | inr d =>
      match parts with
      | [] => inr Dir
      | _ => match lookup_node tree (step d (List.last parts "")) with
             | Some n => inr n
             | None => inl ENOENT
             end
      end
  end.

(** [mkdir(2)]: the parent has to resolve to a directory that still exists,
    the last component must not exist yet, and the host must not refuse:
    [refused] gives the error number, if any, with which it declines to
    create a directory at a resolved path. *)
Definition mkdir (refused : list string -> option Z) (tree : gmap (list string) node)
    (start parts : list string) : errno + gmap (list string) node :=
  match resolve tree start (removelast parts) with
  | inl e => inl e
  | inr d =>
      match parts with
      | [] => inl EEXIST
      | _ =>
          let c := List.last parts "" in
          if String.eqb c ".." then inl EEXIST
          else match lookup_node tree (d ++ [c]) with
               | Some _ => inl EEXIST
               | None =>
                   match lookup_node tree d with
                   | Some Dir =>
                       match refused (d ++ [c]) with
                       | Some code => inl (errno_of_code code)
                       | None => inr (<[d ++ [c] := Dir]> tree)
                       end
                   | Some File => inl ENOTDIR
                   | None => inl ENOENT
                   end
               end
      end
  end.

(** The process' view of the host: the tree, the working directory (which
    need not be in the tree any more), the lines on the console, and the
    error numbers with which the host refuses to create directories
    (permissions, name length, a read-only or full file system). *)
Record world := mk_world {
  tree : gmap (list string) node;
  cwd : list string;
  stdout : list string;
  mkdir_refused : list string -> option Z
}.

Definition start_of (w : world) (absolute : bool) : list string :=
  if absolute then [] else cwd w.

(** [os.path.isfile(s)]: [stat] says regular file; any error, and a NUL in
    the path, is [False].  A path ending in a slash or in a [.] component
    names a directory. *)
Definition isfile (w : world) (s : string) : bool :=
  let segs := PyStr.split_on "/" s in
  if PyStr.has_nul s then false
  else if PosixPath.is_name (List.last segs "") then
    match stat (tree w) (start_of w (String.prefix "/" s)) (PosixPath.components s) with
    | inr File => true
    | _ => false
    end
  else false.

(** [Path.is_dir()]. *)
Definition is_dir (w : world) (p : PosixPath.t) : bool :=
  if PyStr.has_nul (PosixPath.str p) then false
  else match stat (tree w) (start_of w (PosixPath.is_absolute p)) (PosixPath.p_parts p) with
       | inr Dir => true
       | _ => false
       end.

(** [os.getcwd()]: the path of the working directory, [ENOENT] once it has
    been removed. *)
Definition getcwd (w : world) : errno + PosixPath.t :=
  match lookup_node (tree w) (cwd w) with
  | Some Dir => inr {| PosixPath.p_root := PosixPath.Slash; PosixPath.p_parts := cwd w |}
  | _ => inl ENOENT
  end.

End OS.

(* ===================================================================== *)
(** ** Exceptions and the effect monad *)
(* ===================================================================== *)

(** An [OSError] carries its error number and, when the failing call had
    one, its file name; with [ENOENT] it is a [FileNotFoundError] and with
    [EEXIST] a [FileExistsError].  [FileNotFoundError msg] is the one the
    program raises itself, with a message of its own. *)
Inductive exn :=
| ValueError (msg : string)
| FileNotFoundError (msg : string)
| KeyError (key : string)
| OSError (e : OS.errno) (filename : option string)
| TypeError
| AttributeError
| DownloadError (msg : string)
| ExtractorError (msg : string)
| Exception (msg : string)
| OtherException (msg : string)
| SystemExit (code : Z)
| KeyboardInterrupt.

(** [isinstance(e, Exception)]: [SystemExit] and [KeyboardInterrupt] derive
    from [BaseException] only. *)
Definition is_Exception (e : exn) : bool :=
  match e with
  | SystemExit _ | KeyboardInterrupt => false
  | _ => true
  end.

(** [str(e)]: the message for the exceptions that were raised with one;
    [host_str] is the interpreter's text for the others. *)
Definition exn_str (host_str : exn -> string) (e : exn) : string :=
  match e with
  | ValueError m | FileNotFoundError m | DownloadError m | ExtractorError m
  | Exception m | OtherException m => m
  | _ => host_str e
  end.

Inductive result (A : Type) :=
| Returns (a : A)
| Raises (e : exn).
Arguments Returns {A} a.
Arguments Raises {A} e.

Definition M (A : Type) : Type := OS.world -> result A * OS.world.

Definition ret {A} (a : A) : M A := fun w => (Returns a, w).
Definition raise {A} (e : exn) : M A := fun w => (Raises e, w).
Definition bind {A B} (m : M A) (k : A -> M B) : M B :=
  fun w => match m w with
           | (Returns a, w') => k a w'
           | (Raises e, w') => (Raises e, w')
           end.
Definition ask {A} (f : OS.world -> A) : M A := fun w => (Returns (f w), w).

Notation "'let*' x ':=' m 'in' k" := (bind m (fun x => k))
  (at level 10, x name, m at level 100, k at level 200).
Notation "m ;;; k" := (bind m (fun _ => k))
  (at level 100, k at level 200, right associativity).

(** [print(s)]. *)
Definition print (s : string) : M unit :=
  fun w => (Returns tt,
            {| OS.tree := OS.tree w; OS.cwd := OS.cwd w; OS.stdout := OS.stdout w ++ [s];
               OS.mkdir_refused := OS.mkdir_refused w |}).

(** [try: m  except <class>: h]. *)
Definition try_except {A} (m : M A) (h : exn -> M A) : M A :=
  fun w => match m w with
           | (Returns a, w') => (Returns a, w')
           | (Raises e, w') => h e w'
           end.

(** [Path.cwd()]. *)
Definition Path_cwd : M PosixPath.t :=
  fun w => match OS.getcwd w with
           | inr p => (Returns p, w)
           | inl e => (Raises (OSError e None), w)
           end.

(** [p.absolute()]: an absolute path is returned as it is, a relative one is
    joined to [os.getcwd()]. *)
Definition Path_absolute (p : PosixPath.t) : M PosixPath.t :=
  if PosixPath.is_absolute p then ret p
  else let* c := Path_cwd in ret (PosixPath.join c p).

(** [os.mkdir(p)] as [Path.mkdir] sees it: the new tree, or the exception.
    A path with a NUL never reaches the host. *)
Definition os_mkdir (p : PosixPath.t) (w : OS.world) : exn + OS.world :=
  if PyStr.has_nul (PosixPath.str p) then inl (ValueError "embedded null byte")
  else match OS.mkdir (OS.mkdir_refused w) (OS.tree w)
               (OS.start_of w (PosixPath.is_absolute p)) (PosixPath.p_parts p) with
       | inr t' => inr {| OS.tree := t'; OS.cwd := OS.cwd w; OS.stdout := OS.stdout w;
                          OS.mkdir_refused := OS.mkdir_refused w |}
       | inl e => inl (OSError e (Some (PosixPath.str p)))
       end.

(** One [Path.mkdir] without [parents]: a missing parent is re-raised, any
    other [OSError] is forgiven under [exist_ok] when the path is a
    directory, and an exception that is no [OSError] passes through. *)
Definition Path_mkdir_once (p : PosixPath.t) (exist_ok : bool) : M unit :=
  fun w =>
    match os_mkdir p w with
    | inr w' => (Returns tt, w')
    | inl (OSError OS.ENOENT f) => (Raises (OSError OS.ENOENT f), w)
    | inl (OSError e f) =>
        if negb exist_ok || negb (OS.is_dir w p)
        then (Raises (OSError e f), w)
        else (Returns tt, w)
    | inl e => (Raises e, w)
    end.

(** [Path.mkdir(parents=True, exist_ok=...)] on the path with root [r] and
    components [rev rparts]: on a missing parent, make the parent (with
    [parents=True, exist_ok=True]) and try once more; a path without
    components is its own parent, and the error is re-raised. *)
Fixpoint Path_mkdir_parents (r : PosixPath.root) (rparts : list string) (exist_ok : bool) : M unit :=
  let p := {| PosixPath.p_root := r; PosixPath.p_parts := rev rparts |} in
  fun w =>
    match os_mkdir p w with
    | inr w' => (Returns tt, w')
    | inl (OSError OS.ENOENT f) =>
        match rparts with
        | [] => (Raises (OSError OS.ENOENT f), w)
        | _ :: rparent =>
            (Path_mkdir_parents r rparent true ;;; Path_mkdir_once p exist_ok) w
        end
    | inl (OSError e f) =>
        if negb exist_ok || negb (OS.is_dir w p)
        then (Raises (OSError e f), w)
        else (Returns tt, w)
    | inl e => (Raises e, w)
    end.

(** [p.mkdir(parents=..., exist_ok=...)]. *)
Definition Path_mkdir (p : PosixPath.t) (parents exist_ok : bool) : M unit :=
  if parents
  then Path_mkdir_parents (PosixPath.p_root p) (rev (PosixPath.p_parts p)) exist_ok
  else Path_mkdir_once p exist_ok.

(* ===================================================================== *)
(** ** The wrapped library, as far as [download] talks to it *)
(* ===================================================================== *)

(** A progress callback: the class' own [_progress_hook] or one installed
    by an embedding program under [_custom_progress_hook]. *)
Inductive progress_hook := DefaultProgressHook | CustomProgressHook (id : nat).

(** Values of the options dict. *)
Inductive ydl_value :=
| VStr (s : string)
| VBool (b : bool)
| VHooks (hooks : list progress_hook)
| VPostprocessors (pps : list (gmap string string)).

(** A value of the metadata dict: a string or anything else. *)
Inductive info_value := IStr (s : string) | INotStr.

(** What a [YoutubeDL] object answers.  The library is an oracle: its
    answers are arbitrary, and its own effects on the host (the files it
    writes, what it prints) are not modelled. *)
Record YoutubeDL := {
  extract_info : string -> bool -> result (option (gmap string info_value));
  ydl_download : list string -> result unit;
  prepare_filename : option (gmap string info_value) -> result string
}.

Definition lift {A} (r : result A) : M A := fun w => (r, w).

(** A line feed, and the two marks of the console messages. *)
Definition nl : string := String (ascii_of_nat 10) EmptyString.
Definition check_mark : string := "✓".
Definition cross_mark : string := "✗".

(* ===================================================================== *)
(** ** class VideoDownloader *)
(* ===================================================================== *)

Module VideoDownloader.

Definition PLATFORMS : list (string * list string) :=
  [ ("youtube", ["youtube.com"; "youtu.be"]);
    ("instagram", ["instagram.com"]);
    ("twitter", ["twitter.com"; "x.com"]);
    ("x", ["twitter.com"; "x.com"]) ].

Definition QUALITY_OPTIONS : list string := ["360"; "480"; "720"; "1080"; "best"].

(** [k in d], [d.keys()] and [d[k]] for a dict kept in insertion order. *)
Definition keys {V} (d : list (string * V)) : list string := map fst d.

Definition str_in (k : string) (l : list string) : bool := existsb (String.eqb k) l.

Fixpoint getitem {V} (d : list (string * V)) (k : string) : option V :=
  match d with
  | [] => None
  | (k', v) :: r => if String.eqb k k' then Some v else getitem r k
  end.

(** The attributes of an instance. *)
Record t := mk {
  platform : string;
  link : string;
  quality : string;
  output_dir : PosixPath.t;
  audio_only : bool;
  filename : option string;
  cookies : option string;
  format : option string;
  _custom_progress_hook : option progress_hook
}.

Definition _normalize_platform (platform : string) : string :=
  let platform_lower := PyStr.lower platform in
  if String.eqb platform_lower "x" then "twitter" else platform_lower.

Definition _validate_inputs (self : t) : M unit :=
  if negb (str_in (platform self) (keys PLATFORMS)) then
    let valid_platforms :=
      PyStr.join ", " (List.filter (fun p => negb (String.eqb p "x")) (keys PLATFORMS)) in
    raise (ValueError ("Invalid platform '" +:+ platform self
                       +:+ "'. Supported platforms: " +:+ valid_platforms))
  else if negb (PyStr.startswith_any (link self) ["http://"; "https://"]) then
    raise (ValueError ("Invalid URL format: " +:+ link self))
  else
    let url_lower := PyStr.lower (link self) in
    match getitem PLATFORMS (platform self) with
    | None => raise (KeyError (platform self))
    | Some platform_domains =>
        (if negb (existsb (fun domain => PyStr.contains domain url_lower) platform_domains)
         then print ("Warning: URL '" +:+ link self +:+ "' may not match platform '"
                     +:+ platform self +:+ "'")
         else ret tt) ;;;
        if negb (str_in (quality self) QUALITY_OPTIONS) then
          let valid_qualities := PyStr.join ", " QUALITY_OPTIONS in
          raise (ValueError ("Invalid quality '" +:+ quality self
                             +:+ "'. Supported qualities: " +:+ valid_qualities))
        else
          let* is_file := ask (fun w => OS.isfile w (default "" (cookies self))) in
          if PyStr.truthy (cookies self) && negb is_file then
            raise (FileNotFoundError ("Cookies file not found: " +:+ default "" (cookies self)))
          else ret tt
    end.

(** [self.output_dir.mkdir(parents=True, exist_ok=True)]. *)
Definition ensure_output_dir (self : t) : M unit :=
  Path_mkdir (output_dir self) true true.

(** Line 48: [Path(output_dir) if output_dir else Path.cwd()]. *)
Definition choose_output_dir (output_dir : option string) : M PosixPath.t :=
  if PyStr.truthy output_dir then ret (PosixPath.Path (default "" output_dir)) else Path_cwd.

(** Lines 45 to 52: the attributes, once the output directory is known. *)
Definition assign (platform link : string) (quality : option string) (dir : PosixPath.t)
    (audio_only : bool) (filename cookies format : option string) : t :=
  {| platform := _normalize_platform platform;
     link := link;
     quality := PyStr.or_else quality "best";
     output_dir := dir;
     audio_only := audio_only;
     filename := filename;
     cookies := cookies;
     format := format;
     _custom_progress_hook := None |}.

(** [__init__], run on a fresh instance: the attributes (where [Path.cwd()]
    can fail), then validation, then the output directory.  Its value here is
    the instance it has initialised. *)
Definition __init__ (platform link : string) (quality output_dir : option string)
    (audio_only : bool) (filename cookies format : option string) : M t :=
  let* dir := choose_output_dir output_dir in
  let self := assign platform link quality dir audio_only filename cookies format in
  _validate_inputs self ;;; ensure_output_dir self ;;; ret self.

(** The expression [VideoDownloader(...)]: the instance when [__init__]
    returns, its exception otherwise. *)
Definition new (platform link : string) (quality output_dir : option string)
    (audio_only : bool) (filename cookies format : option string) : M t :=
  __init__ platform link quality output_dir audio_only filename cookies format.

Definition _get_quality_format_selector (self : t) : string :=
  if audio_only self then "bestaudio/best"
  else if String.eqb (quality self) "best" then "bestvideo+bestaudio/best"
  else match PyStr.int (quality self) with
       | None => "bestvideo+bestaudio/best"
       | Some target_height =>
           "bestvideo[height<=" +:+ PyStr.str_of_int target_height
           +:+ "]+bestaudio/best[height<=" +:+ PyStr.str_of_int target_height
           +:+ "]/best"
       end.

Definition _get_output_template (self : t) : string :=
  if PyStr.truthy (filename self) then
    let base_name := fst (PyStr.splitext (default "" (filename self))) in
    let template :=
      if audio_only self then base_name +:+ ".%(ext)s" else base_name +:+ ".%(ext)s" in
    PosixPath.str (output_dir self // template)
  else PosixPath.str (output_dir self // "%(title)s.%(ext)s").

Definition _get_ydl_opts (self : t) : gmap string ydl_value :=
  let progress_hook := default DefaultProgressHook (_custom_progress_hook self) in
  let opts : gmap string ydl_value :=
    <["progress_hooks" := VHooks [progress_hook]]>
    (<["no_warnings" := VBool false]>
    (<["quiet" := VBool false]>
    (<["outtmpl" := VStr (_get_output_template self)]>
    (<["format" := VStr (_get_quality_format_selector self)]> ∅)))) in
  let opts :=
    if PyStr.truthy (cookies self)
    then <["cookiefile" := VStr (default "" (cookies self))]> opts
    else opts in
  if audio_only self then
    let audio_codec := PyStr.or_else (format self) "mp3" in
    let opts :=
      <["postprocessors" :=
          VPostprocessors
            [ <["preferredquality" := "192"]>
              (<["preferredcodec" := audio_codec]>
              (<["key" := "FFmpegExtractAudio"]> ∅)) ]]> opts in
    if negb (PyStr.truthy (filename self))
    then <["outtmpl" := VStr (PosixPath.str (output_dir self // "%(title)s.%(ext)s"))]> opts
    else opts
  else
    if PyStr.truthy (format self)
    then <["merge_output_format" := VStr (default "" (format self))]> opts
    else opts.

(** [info.get('ext', 'mp4')]; [info] may be [None]. *)
Definition info_get_ext (info : option (gmap string info_value)) : result info_value :=
  match info with
  | None => Raises AttributeError
  | Some d => Returns (default (IStr "mp4") (d !! "ext"))
  end.

(** [a + b] for a string [a]: [TypeError] unless [b] is a string too. *)
Definition str_add (a : string) (b : info_value) : result string :=
  match b with
  | IStr s => Returns (a +:+ s)
  | INotStr => Raises TypeError
  end.

(** "Determine final file path" (the end of the [try] body). *)
Definition final_path (self : t) (ydl : YoutubeDL)
    (info : option (gmap string info_value)) : M PosixPath.t :=
  if PyStr.truthy (filename self) then
    let base_name := fst (PyStr.splitext (default "" (filename self))) in
    let* ext :=
      (if audio_only self then ret (IStr (PyStr.or_else (format self) "mp3"))
       else if PyStr.truthy (format self) then ret (IStr (default "" (format self)))
       else lift (info_get_ext info)) in
    let* final_filename := lift (str_add (base_name +:+ ".") ext) in
    Path_absolute (output_dir self // final_filename)
  else
    let* final_filename := lift (prepare_filename ydl info) in
    if audio_only self then
      let base := fst (PyStr.splitext final_filename) in
      let ext := PyStr.or_else (format self) "mp3" in
      Path_absolute (PosixPath.Path (base +:+ "." +:+ ext))
    else if PyStr.truthy (format self) then
      let base := fst (PyStr.splitext final_filename) in
      Path_absolute (PosixPath.Path (base +:+ "." +:+ default "" (format self)))
    else Path_absolute (PosixPath.Path final_filename).

(** [sys.exit(1)]. *)
Definition sys_exit {A} (code : Z) : M A := raise (SystemExit code).

(** [if not suppress_output: print(s)]. *)
Definition say (suppress_output : bool) (s : string) : M unit :=
  if negb suppress_output then print s else ret tt.

(** Lines 209 to 217: what is printed before the download starts.  The output
    directory is made absolute for the message, outside any [try]. *)
Definition announce (self : t) : M unit :=
  print ("Platform: " +:+ platform self) ;;;
  print ("Quality: " +:+ quality self) ;;;
  (if PyStr.truthy (format self) then print ("Format: " +:+ default "" (format self))
   else ret tt) ;;;
  (let* dir := Path_absolute (output_dir self) in
   print ("Output directory: " +:+ PosixPath.str dir)) ;;;
  (if audio_only self then print "Mode: Audio only" else ret tt) ;;;
  print "".

(** [download]: [yt_dlp] is [None] when the import fails; [host_str] is the
    interpreter's [str(e)] for the exceptions that have no message of their
    own. *)
Definition download (host_str : exn -> string)
    (yt_dlp : option (gmap string ydl_value -> result YoutubeDL))
    (self : t) (suppress_output : bool) : M string :=
  match yt_dlp with
  | None =>
      let error_msg :=
        "Error: yt-dlp is not installed. Please install it with: pip install yt-dlp" in
      say suppress_output error_msg ;;; sys_exit 1
  | Some new_YoutubeDL =>
      (if negb suppress_output then announce self else ret tt) ;;;
      let ydl_opts := _get_ydl_opts self in
      try_except
        (let* ydl := lift (new_YoutubeDL ydl_opts) in
         let* info := lift (extract_info ydl (link self) false) in
         lift (ydl_download ydl [link self]) ;;;
         let* final := final_path self ydl info in
         say suppress_output
           (nl +:+ check_mark +:+ " Successfully downloaded to: " +:+ PosixPath.str final) ;;;
         ret (PosixPath.str final))
        (fun e =>
           match e with
           | DownloadError m =>
               let error_msg := "Download error: " +:+ m in
               if negb suppress_output
               then print (nl +:+ cross_mark +:+ " " +:+ error_msg) ;;; sys_exit 1
               else raise (Exception error_msg)
           | ExtractorError m =>
               let error_msg := "Extraction error: " +:+ m in
               if negb suppress_output
               then print (nl +:+ cross_mark +:+ " " +:+ error_msg) ;;;
                    print "This might be due to an invalid URL or unsupported content." ;;;
                    sys_exit 1
               else raise (Exception error_msg)
           | _ =>
               if is_Exception e
               then (if negb suppress_output
                     then print (nl +:+ cross_mark +:+ " Unexpected error: "
                                 +:+ exn_str host_str e) ;;;
                          sys_exit 1
                     else raise e)
               else raise e
           end)
  end.

End VideoDownloader.

Import VideoDownloader.

(* ===================================================================== *)
(** ** The command line: [main] after [parse_args] *)
(* ===================================================================== *)

(** The namespace [parser.parse_args()] returns.  [--quality] has a default,
    so [quality] is always a string; the other optional flags default to
    [None]. *)
Record Namespace := {
  args_platform : string;
  args_link : string;
  args_quality : string;
  args_output : option string;
  args_audio_only : bool;
  args_filename : option string;
  args_cookies : option string;
  args_format : option string
}.

(** The [choices] of [--platform] and of [--quality]. *)
Definition platform_choices : list string := ["youtube"; "instagram"; "twitter"; "x"].
Definition quality_choices : list string := ["360"; "480"; "720"; "1080"; "best"].

(** [main], from the call of the constructor on; [download] is called in
    interactive mode.  [except FileNotFoundError] also catches the host's
    [OSError] with [ENOENT]. *)
Definition main (host_str : exn -> string)
    (yt_dlp : option (gmap string ydl_value -> result YoutubeDL)) (args : Namespace) : M unit :=
  try_except
    (let* downloader :=
       new (args_platform args) (args_link args) (Some (args_quality args)) (args_output args)
           (args_audio_only args) (args_filename args) (args_cookies args) (args_format args) in
     download host_str yt_dlp downloader false ;;; ret tt)
    (fun e =>
       match e with
       | ValueError _ => print ("Error: " +:+ exn_str host_str e) ;;; sys_exit 1
       | FileNotFoundError _ => print ("Error: " +:+ exn_str host_str e) ;;; sys_exit 1
       | OSError OS.ENOENT _ => print ("Error: " +:+ exn_str host_str e) ;;; sys_exit 1
       | KeyboardInterrupt => print (nl +:+ nl +:+ "Download cancelled by user.") ;;; sys_exit 1
       | _ => raise e
       end).

(* ===================================================================== *)
(** ** Specification-side vocabulary *)
(* ===================================================================== *)

(** The platform names the validator recognises (the keys of [PLATFORMS]). *)
Definition recognized_platforms : list string := ["youtube"; "instagram"; "twitter"; "x"].

(** The alternatives of a format selector, in order of preference. *)
Definition alternatives (selector : string) : list string := PyStr.split_on "/" selector.

(** The one post-processor entry of an audio-only download with codec [c]. *)
Definition extract_audio (c : string) : gmap string string :=
  <["preferredquality" := "192"]>
    (<["preferredcodec" := c]> (<["key" := "FFmpegExtractAudio"]> ∅)).

(** Some platform domain occurs in the lower-cased URL. *)
Definition domain_matches (self : t) : bool :=
  existsb (fun domain => PyStr.contains domain (PyStr.lower (link self)))
          (default [] (getitem PLATFORMS (platform self))).

Definition domain_warning (self : t) : string :=
  "Warning: URL '" +:+ link self +:+ "' may not match platform '" +:+ platform self +:+ "'".

(** The world with one more console line. *)
Definition with_line (w : OS.world) (s : string) : OS.world :=
  {| OS.tree := OS.tree w; OS.cwd := OS.cwd w; OS.stdout := OS.stdout w ++ [s];
     OS.mkdir_refused := OS.mkdir_refused w |}.

(** The world after validation has passed: one warning more on the console
    when no domain matches, nothing else. *)
Definition after_validation (self : t) (w : OS.world) : OS.world :=
  if domain_matches self then w else with_line w (domain_warning self).

(** The cookie argument is absent (or empty) or names a regular file. *)
Definition cookies_ok (w : OS.world) (cookies : option string) : bool :=
  negb (PyStr.truthy cookies) || OS.isfile w (default "" cookies).

(** [w'] is [w] with directories added: nothing is removed or changed, no
    regular file appears, and the working directory, the console and the
    host's refusals are as before. *)
Definition grows (w w' : OS.world) : Prop :=
  OS.tree w ⊆ OS.tree w'
  /\ OS.cwd w' = OS.cwd w
  /\ OS.stdout w' = OS.stdout w
  /\ OS.mkdir_refused w' = OS.mkdir_refused w
  /\ (forall k, OS.tree w' !! k = Some OS.File -> OS.tree w !! k = Some OS.File).

(** [w'] differs from [w] at most by new directories, each of which is what
    the path [p] or one of its ancestors resolves to: every node of [w] is in
    [w'] unchanged, and every other node of [w'] is such a directory. *)
Definition only_makes (p : PosixPath.t) (w w' : OS.world) : Prop :=
  OS.cwd w' = OS.cwd w
  /\ OS.stdout w' = OS.stdout w
  /\ OS.mkdir_refused w' = OS.mkdir_refused w
  /\ OS.tree w ⊆ OS.tree w'
  /\ (forall k n,
         OS.tree w' !! k = Some n -> OS.tree w !! k = None ->
         n = OS.Dir
         /\ exists i, OS.resolve (OS.tree w') (OS.start_of w (PosixPath.is_absolute p))
                        (take i (PosixPath.p_parts p)) = inr k).

(** Line 48 has a directory to take: an output directory is given, or the
    working directory still exists. *)
Definition output_dir_available (w : OS.world) (output_dir : option string) : bool :=
  PyStr.truthy output_dir
  || match OS.getcwd w with inr _ => true | inl _ => false end.

(** The path of the first [n] components of [p]: an ancestor of [p], or [p]
    itself. *)
Definition ancestor (p : PosixPath.t) (n : nat) : PosixPath.t :=
  {| PosixPath.p_root := PosixPath.p_root p;
     PosixPath.p_parts := take n (PosixPath.p_parts p) |}.

(** A sample host: the working directory [/home/u] holding the regular file
    [cookies.txt]; nothing is refused. *)
Definition sample_world : OS.world :=
  {| OS.tree := <[ ["home"; "u"; "cookies.txt"] := OS.File ]>
                (<[ ["home"; "u"] := OS.Dir ]> (<[ ["home"] := OS.Dir ]> ∅));
     OS.cwd := ["home"; "u"];
     OS.stdout := [];
     OS.mkdir_refused := fun _ => None |}.

(** A process whose working directory [/gone] has been removed. *)
Definition orphan_world : OS.world :=
  {| OS.tree := <[ ["tmp"] := OS.Dir ]> ∅;
     OS.cwd := ["gone"];
     OS.stdout := [];
     OS.mkdir_refused := fun _ => None |}.

(** The working directory of [sample_world], as [Path.cwd()] gives it. *)
Definition sample_cwd : PosixPath.t :=
  {| PosixPath.p_root := PosixPath.Slash; PosixPath.p_parts := ["home"; "u"] |}.

(** What the constructor call amounts to once the output directory is chosen
    and validation has passed: the outcome of [mkdir]. *)
Definition construct_after_validation (self : t) (w : OS.world) : result t * OS.world :=
  match ensure_output_dir self (after_validation self w) with
  | (Returns _, w') => (Returns self, w')
  | (Raises e, w') => (Raises e, w')
  end.

(** An instance built with quality 720, video mode. *)
Definition sample_720 : t :=
  assign "youtube" "https://youtu.be/abc" (Some "720") sample_cwd false None None None.

(** An audio-only instance built without a format. *)
Definition sample_audio : t :=
  assign "instagram" "https://instagram.com/p/abc" None (PosixPath.Path "music") true
         None None None.

(** Two audio-only instances that differ in quality only. *)
Definition sample_audio_360 : t :=
  assign "youtube" "https://youtu.be/abc" (Some "360") sample_cwd true None None None.

Definition sample_audio_1080 : t :=
  assign "youtube" "https://youtu.be/abc" (Some "1080") sample_cwd true None None None.

(** A library whose calls all return and whose metadata report the
    extension [mkv]. *)
Definition sample_ydl : YoutubeDL :=
  {| extract_info := fun _ _ => Returns (Some (<["ext" := IStr "mkv"]> ∅));
     ydl_download := fun _ => Returns tt;
     prepare_filename := fun _ => Returns "video.mkv" |}.

Definition sample_clip : t :=
  assign "youtube" "https://youtube.com/watch?v=abc" (Some "1080") (PosixPath.Path "out") false
         (Some "clip") None (Some "webm").

(** No slash occurs in [s]. *)
Definition slash_free (s : string) : bool := negb (PyStr.contains "/" s).

(** The extension the caller asked for, if any: the codec (or mp3) in
    audio-only mode, the format in video mode. *)
Definition requested_ext (self : t) : option string :=
  if audio_only self then Some (PyStr.or_else (format self) "mp3")
  else if PyStr.truthy (format self) then format self
  else None.

(** The keys [_get_ydl_opts] sets. *)
Definition expected_keys (self : t) : gset string :=
  {["format"; "outtmpl"; "quiet"; "no_warnings"; "progress_hooks"]}
  ∪ (if PyStr.truthy (cookies self) then {["cookiefile"]} else ∅)
  ∪ (if audio_only self then {["postprocessors"]}
     else if PyStr.truthy (format self) then {["merge_output_format"]} else ∅).

(** A sample interpreter text for the exceptions without a message. *)
Definition sample_host_str (e : exn) : string :=
  match e with
  | OSError OS.ENOENT None => "[Errno 2] No such file or directory"
  | OSError OS.ENOENT (Some p) => "[Errno 2] No such file or directory: '" +:+ p +:+ "'"
  | OSError OS.EEXIST (Some p) => "[Errno 17] File exists: '" +:+ p +:+ "'"
  | AttributeError => "'NoneType' object has no attribute 'get'"
  | _ => ""
  end.

(** The last component of the path [p] is [y]. *)
Definition ends_in (y : string) (p : PosixPath.t) : Prop :=
  exists l, PosixPath.p_parts p = l ++ [y].

(** The library raised [e]: the constructor of [YoutubeDL] or one of the
    three calls [download] makes. *)
Definition library_raised (new_YoutubeDL : gmap string ydl_value -> result YoutubeDL)
    (self : t) (e : exn) : Prop :=
  new_YoutubeDL (_get_ydl_opts self) = Raises e
  \/ exists ydl, new_YoutubeDL (_get_ydl_opts self) = Returns ydl
                 /\ (extract_info ydl (link self) false = Raises e
                     \/ ydl_download ydl [link self] = Raises e
                     \/ exists info, prepare_filename ydl info = Raises e).




(** A video instance with an absolute custom filename, and an audio-only
    one asking for m4a with a cookie file. *)
Definition sample_absolute_name : t :=
  assign "youtube" "https://youtu.be/abc" None (PosixPath.Path "out") false
         (Some "/tmp/clip.mp4") None None.

Definition sample_m4a : t :=
  assign "youtube" "https://youtu.be/abc" None sample_cwd true None (Some "cookies.txt")
         (Some "m4a").

(** An instance whose link mentions [youtube.com] in its query only. *)
Definition sample_other_site : t :=
  assign "youtube" "https://example.org/watch?next=youtube.com/abc" None sample_cwd false
         None None None.

(** Sample command lines: an output path that is a regular file, a link
    without a scheme, and a plain valid one. *)
Definition sample_args_file_output : Namespace :=
  {| args_platform := "youtube"; args_link := "https://youtu.be/abc"; args_quality := "720";
     args_output := Some "cookies.txt"; args_audio_only := false; args_filename := None;
     args_cookies := Some "cookies.txt"; args_format := None |}.

Definition sample_args_no_scheme : Namespace :=
  {| args_platform := "x"; args_link := "x.com/u/status/1"; args_quality := "best";
     args_output := None; args_audio_only := false; args_filename := None;
     args_cookies := None; args_format := None |}.

Definition sample_args_valid : Namespace :=
  {| args_platform := "youtube"; args_link := "https://youtu.be/abc"; args_quality := "720";
     args_output := Some "videos"; args_audio_only := false; args_filename := None;
     args_cookies := None; args_format := None |}.

(* ===================================================================== *)
(** ** The model at work *)
(* ===================================================================== *)

Example lower_mixed_case : PyStr.lower "YouTube" = "youtube".
Proof. reflexivity. Qed.

Example splitext_cases :
  PyStr.splitext "clip" = ("clip", "")
  /\ PyStr.splitext "my.video.mp4" = ("my.video", ".mp4")
  /\ PyStr.splitext ".hidden" = (".hidden", "")
  /\ PyStr.splitext "a.b/clip" = ("a.b/clip", "").
Proof. repeat split. Qed.

Example int_cases :
  PyStr.int "720" = Some 720%Z
  /\ PyStr.int " 1_080 " = Some 1080%Z
  /\ PyStr.int "best" = None
  /\ PyStr.int "7__2" = None.
Proof. repeat split. Qed.

Example Path_str_cases :
  PosixPath.str (PosixPath.Path "./out") = "out"
  /\ PosixPath.str (PosixPath.Path "") = "."
  /\ PosixPath.str (PosixPath.Path "//srv/./media/") = "//srv/media"
  /\ PosixPath.str (PosixPath.Path "out" // "/tmp/x") = "/tmp/x".
Proof. repeat split. Qed.

Example selector_cases :
  _get_quality_format_selector sample_720
  = "bestvideo[height<=720]+bestaudio/best[height<=720]/best"
  /\ _get_quality_format_selector sample_audio_1080 = "bestaudio/best"
  /\ _get_output_template sample_clip = "out/clip.%(ext)s".
Proof. repeat split. Qed.

Example isfile_cases :
  OS.isfile sample_world "cookies.txt" = true
  /\ OS.isfile sample_world "/home/u/../u/cookies.txt" = true
  /\ OS.isfile sample_world "cookies.txt/" = false
  /\ OS.isfile sample_world "/home/u" = false.
Proof. repeat split. Qed.

Example mkdir_over_a_file :
  fst (Path_mkdir (PosixPath.Path "cookies.txt") true true sample_world)
  = Raises (OSError OS.EEXIST (Some "cookies.txt"))
  /\ fst (Path_mkdir (PosixPath.Path "cookies.txt/sub") true true sample_world)
     = Raises (OSError OS.ENOTDIR (Some "cookies.txt/sub")).
Proof. split; vm_compute; reflexivity. Qed.

Example mkdir_makes_parents :
  let w' := snd (Path_mkdir (PosixPath.Path "a/b/c") true true sample_world) in
  OS.is_dir w' (PosixPath.Path "a") = true
  /\ OS.is_dir w' (PosixPath.Path "a/b") = true
  /\ OS.is_dir w' (PosixPath.Path "/home/u/a/b/c") = true
  /\ OS.isfile w' "cookies.txt" = true.
Proof. repeat split. Qed.

(** In a removed working directory [Path.cwd()] fails, [.] still resolves,
    and nothing can be created below it; the error names the first component
    that could not be made. *)
Example removed_working_directory :
  fst (Path_cwd orphan_world) = Raises (OSError OS.ENOENT None)
  /\ OS.is_dir orphan_world (PosixPath.Path ".") = true
  /\ fst (Path_mkdir (PosixPath.Path "a/b") true true orphan_world)
     = Raises (OSError OS.ENOENT (Some "a"))
  /\ fst (Path_absolute (PosixPath.Path "a") orphan_world) = Raises (OSError OS.ENOENT None)
  /\ fst (Path_absolute (PosixPath.Path "/a") orphan_world) = Returns (PosixPath.Path "/a").
Proof. repeat split. Qed.

(** A path with a NUL is refused before the host sees it. *)
Example mkdir_with_nul :
  fst (Path_mkdir (PosixPath.Path (String (ascii_of_nat 0) "a")) true true sample_world)
  = Raises (ValueError "embedded null byte").
Proof. reflexivity. Qed.


(** A host that refuses to create [/home/u/a] (error 13, no permission): the
    error comes out of [Path.mkdir] as it is, naming the path that could not
    be made. *)
Example mkdir_refused_by_host :
  let w := {| OS.tree := OS.tree sample_world;
              OS.cwd := OS.cwd sample_world;
              OS.stdout := [];
              OS.mkdir_refused :=
                fun k => if bool_decide (k = ["home"; "u"; "a"]) then Some 13%Z else None |} in
  fst (Path_mkdir (PosixPath.Path "a/b") true true w) = Raises (OSError OS.EACCES (Some "a"))
  /\ fst (Path_mkdir (PosixPath.Path "c/d") true true w) = Returns tt.
Proof. split; vm_compute; reflexivity. Qed.
(* ===================================================================== *)
(** ** Strings *)
(* ===================================================================== *)

Section strings.

Lemma append_nil (b : string) : "" +:+ b = b.
Proof. reflexivity. Qed.

Lemma append_cons (c : ascii) (a b : string) : String c a +:+ b = String c (a +:+ b).
Proof. reflexivity. Qed.

Lemma length_append (a b : string) :
  String.length (a +:+ b) = String.length a + String.length b.
Proof.
  induction a as [|c a IH]; [reflexivity |].
  rewrite append_cons; simpl. now rewrite IH.
Qed.

Lemma substring_all (b : string) : String.substring 0 (String.length b) b = b.
Proof. induction b as [|c b IH]; simpl; [reflexivity | now rewrite IH]. Qed.

Lemma substring_skip (a b : string) :
  String.substring (String.length a) (String.length b) (a +:+ b) = b.
Proof.
  induction a as [|c a IH]; [apply substring_all |].
  rewrite append_cons; simpl. exact IH.
Qed.

Lemma endswith_append (a b : string) : PyStr.endswith (a +:+ b) b = true.
Proof.
  unfold PyStr.endswith. rewrite length_append.
  replace (String.length a + String.length b - String.length b) with (String.length a) by lia.
  rewrite substring_skip, String.eqb_refl, andb_true_r.
  apply Nat.leb_le. lia.
Qed.

Lemma append_assoc (a b c : string) : (a +:+ b) +:+ c = a +:+ (b +:+ c).
Proof.
  induction a as [|x a IH]; [reflexivity |].
  rewrite !append_cons. now rewrite IH.
Qed.

Lemma prefix_append (a b : string) : String.prefix a (a +:+ b) = true.
Proof.
  induction a as [|c a IH]; [now destruct b |].
  rewrite append_cons; simpl.
  destruct (ascii_dec c c) as [_|n]; [exact IH | now contradiction n].
Qed.

Lemma contains_prefix (x hay : string) :
  String.prefix x hay = true -> PyStr.contains x hay = true.
Proof. intros H. destruct hay; cbn [PyStr.contains]; rewrite H; reflexivity. Qed.

Lemma contains_middle (pre x post : string) :
  PyStr.contains x (pre +:+ x +:+ post) = true.
Proof.
  induction pre as [|c pre IH].
  - rewrite append_nil. apply contains_prefix, prefix_append.
  - rewrite append_cons; cbn [PyStr.contains]. rewrite IH. apply orb_true_r.
Qed.

(** The last component of a joined path is a suffix of the result. *)
Lemma join_snoc (sep : string) (l : list string) (x : string) :
  exists pre, PyStr.join sep (l ++ [x]) = pre +:+ x.
Proof.
  unfold PyStr.join. induction l as [|a l [pre IH]]; simpl.
  - now exists "".
  - destruct (l ++ [x]) eqn:E.
    + now destruct l.
    + exists (a +:+ sep +:+ pre). rewrite IH, !append_assoc. reflexivity.
Qed.

Lemma str_in_spec (k : string) (l : list string) : str_in k l = true <-> In k l.
Proof.
  unfold str_in. rewrite existsb_exists. split.
  - intros (x & Hx & E). apply String.eqb_eq in E. now subst.
  - intros H. exists k. split; [exact H | apply String.eqb_refl].
Qed.

Lemma str_in_false (k : string) (l : list string) : ~ In k l -> str_in k l = false.
Proof.
  intros H. destruct (str_in k l) eqn:E; [|reflexivity].
  apply str_in_spec in E. contradiction.
Qed.

End strings.

(* ===================================================================== *)
(** ** Paths *)
(* ===================================================================== *)

Section paths.

Lemma str_endswith_last (r : PosixPath.root) (parts : list string) (x : string) :
  PyStr.endswith (PosixPath.str {| PosixPath.p_root := r; PosixPath.p_parts := parts ++ [x] |}) x
  = true.
Proof.
  destruct (join_snoc "/" parts x) as [pre E].
  assert (S : PosixPath.str {| PosixPath.p_root := r; PosixPath.p_parts := parts ++ [x] |}
              = PosixPath.root_str r +:+ PyStr.join "/" (parts ++ [x])).
  { unfold PosixPath.str; cbn [PosixPath.p_root PosixPath.p_parts].
    destruct r; try reflexivity.
    destruct (parts ++ [x]) eqn:P; [now destruct parts | reflexivity]. }
  rewrite S, E, <- append_assoc. apply endswith_append.
Qed.

End paths.

(* ===================================================================== *)
(** ** Validation *)
(* ===================================================================== *)

Section validation.

Variables (self : t) (w : OS.world).

Lemma getitem_recognized :
  In (platform self) recognized_platforms ->
  exists domains, getitem PLATFORMS (platform self) = Some domains.
Proof.
  intros H. simpl in H.
  destruct H as [<-|[<-|[<-|[<-|[]]]]]; eexists; reflexivity.
Qed.

Lemma isfile_with_line (s c : string) : OS.isfile (with_line w s) c = OS.isfile w c.
Proof. reflexivity. Qed.

Lemma validate_bad_platform :
  ~ In (platform self) recognized_platforms ->
  _validate_inputs self w
  = (Raises (ValueError ("Invalid platform '" +:+ platform self
                         +:+ "'. Supported platforms: youtube, instagram, twitter")), w).
Proof.
  intros H. unfold _validate_inputs.
  change (keys PLATFORMS) with recognized_platforms.
  rewrite (str_in_false _ _ H). reflexivity.
Qed.

Lemma validate_bad_url :
  In (platform self) recognized_platforms ->
  PyStr.startswith_any (link self) ["http://"; "https://"] = false ->
  _validate_inputs self w = (Raises (ValueError ("Invalid URL format: " +:+ link self)), w).
Proof.
  intros H U. unfold _validate_inputs.
  change (keys PLATFORMS) with recognized_platforms.
  rewrite (proj2 (str_in_spec _ _) H), U. reflexivity.
Qed.

(** Validation from the quality check on, for a recognized platform and a
    link with a scheme. *)
Lemma validate_from_quality :
  In (platform self) recognized_platforms ->
  PyStr.startswith_any (link self) ["http://"; "https://"] = true ->
  _validate_inputs self w
  = if negb (str_in (quality self) QUALITY_OPTIONS)
    then (Raises (ValueError ("Invalid quality '" +:+ quality self
                              +:+ "'. Supported qualities: 360, 480, 720, 1080, best")),
          after_validation self w)
    else if cookies_ok w (cookies self)
         then (Returns tt, after_validation self w)
         else (Raises (FileNotFoundError
                         ("Cookies file not found: " +:+ default "" (cookies self))),
               after_validation self w).
Proof.
  intros H U. unfold _validate_inputs.
  change (keys PLATFORMS) with recognized_platforms.
  rewrite (proj2 (str_in_spec _ _) H), U. cbn [negb].
  destruct (getitem_recognized H) as [domains G].
  unfold after_validation, domain_matches, domain_warning. rewrite G.
  change (default [] (Some domains)) with domains.
  unfold bind, ask, ret, raise, cookies_ok.
  destruct (existsb _ domains); cbn [negb].
  all: destruct (negb (str_in (quality self) QUALITY_OPTIONS)); try reflexivity.
  all: destruct (PyStr.truthy (cookies self)); cbn [negb orb andb]; try reflexivity.
  all: unfold print; cbv beta iota;
    change (OS.isfile _ (default "" (cookies self)))
      with (OS.isfile w (default "" (cookies self)));
    destruct (OS.isfile w (default "" (cookies self))); reflexivity.
Qed.

Lemma validate_passes :
  In (platform self) recognized_platforms ->
  PyStr.startswith_any (link self) ["http://"; "https://"] = true ->
  In (quality self) QUALITY_OPTIONS ->
  cookies_ok w (cookies self) = true ->
  _validate_inputs self w = (Returns tt, after_validation self w).
Proof.
  intros H U Q C. rewrite (validate_from_quality H U), (proj2 (str_in_spec _ _) Q), C.
  reflexivity.
Qed.

Lemma validate_bad_quality :
  In (platform self) recognized_platforms ->
  PyStr.startswith_any (link self) ["http://"; "https://"] = true ->
  ~ In (quality self) QUALITY_OPTIONS ->
  _validate_inputs self w
  = (Raises (ValueError ("Invalid quality '" +:+ quality self
                         +:+ "'. Supported qualities: 360, 480, 720, 1080, best")),
     after_validation self w).
Proof.
  intros H U Q. rewrite (validate_from_quality H U), (str_in_false _ _ Q). reflexivity.
Qed.

Lemma validate_bad_cookies :
  In (platform self) recognized_platforms ->
  PyStr.startswith_any (link self) ["http://"; "https://"] = true ->
  In (quality self) QUALITY_OPTIONS ->
  cookies_ok w (cookies self) = false ->
  _validate_inputs self w
  = (Raises (FileNotFoundError ("Cookies file not found: " +:+ default "" (cookies self))),
     after_validation self w).
Proof.
  intros H U Q C. rewrite (validate_from_quality H U), (proj2 (str_in_spec _ _) Q), C.
  reflexivity.
Qed.

Lemma after_validation_frame :
  OS.tree (after_validation self w) = OS.tree w
  /\ OS.cwd (after_validation self w) = OS.cwd w
  /\ OS.mkdir_refused (after_validation self w) = OS.mkdir_refused w.
Proof. unfold after_validation. destruct (domain_matches self); auto. Qed.

(** Validation touches the console only. *)
Lemma validate_frame (w1 : OS.world) (r : result unit) :
  _validate_inputs self w = (r, w1) ->
  OS.tree w1 = OS.tree w /\ OS.cwd w1 = OS.cwd w /\ OS.mkdir_refused w1 = OS.mkdir_refused w.
Proof.
  unfold _validate_inputs, bind, ask, print, ret, raise.
  repeat match goal with
         | |- context [if ?b then _ else _] => destruct b
         | |- context [match getitem ?d ?k with _ => _ end] => destruct (getitem d k)
         end;
    intros [= <- <-]; auto.
Qed.

(** The errors validation raises are its own four. *)
Lemma validate_raises (w1 : OS.world) (e : exn) :
  _validate_inputs self w = (Raises e, w1) ->
  (exists m, e = ValueError m /\ PyStr.startswith m "Invalid " = true)
  \/ (exists m, e = FileNotFoundError m).
Proof.
  destruct (in_dec string_dec (platform self) recognized_platforms) as [P|P].
  - destruct (PyStr.startswith_any (link self) ["http://"; "https://"]) eqn:U.
    + rewrite (validate_from_quality P U).
      destruct (negb _); [intros [= <- _]; left; eexists; split; reflexivity |].
      destruct (cookies_ok _ _); [discriminate |]. intros [= <- _]. eauto.
    + rewrite (validate_bad_url P U). intros [= <- _]. left. eexists. split; reflexivity.
  - rewrite (validate_bad_platform P). intros [= <- _]. left. eexists. split; reflexivity.
Qed.

End validation.

(* ===================================================================== *)
(** ** Construction *)
(* ===================================================================== *)

Section construction.

Variables (platform link : string) (quality output_dir : option string)
          (audio_only : bool) (filename cookies format : option string) (w : OS.world).

(** Line 48 returns a directory or raises the error of [os.getcwd()]; the
    world stays as it is. *)
Lemma choose_output_dir_cases :
  (exists dir, choose_output_dir output_dir w = (Returns dir, w))
  \/ (PyStr.truthy output_dir = false
      /\ choose_output_dir output_dir w = (Raises (OSError OS.ENOENT None), w)).
Proof.
  unfold choose_output_dir, Path_cwd, ret, OS.getcwd.
  destruct (PyStr.truthy output_dir); [eauto |].
  destruct (OS.lookup_node (OS.tree w) (OS.cwd w)) as [[]|]; eauto.
Qed.

Lemma choose_output_dir_given :
  PyStr.truthy output_dir = true ->
  choose_output_dir output_dir w = (Returns (PosixPath.Path (default "" output_dir)), w).
Proof. intros T. unfold choose_output_dir. now rewrite T. Qed.

Lemma choose_output_dir_world (r : result PosixPath.t) (w0 : OS.world) :
  choose_output_dir output_dir w = (r, w0) -> w0 = w.
Proof.
  destruct choose_output_dir_cases as [[dir E]|[_ E]]; rewrite E; now intros [= _ <-].
Qed.

(** The constructor fails where line 48 fails. *)
Lemma new_no_directory (e : exn) :
  choose_output_dir output_dir w = (Raises e, w) ->
  new platform link quality output_dir audio_only filename cookies format w = (Raises e, w).
Proof. intros E. unfold new, __init__, bind. now rewrite E. Qed.

Variable dir : PosixPath.t.
Hypothesis chosen : choose_output_dir output_dir w = (Returns dir, w).

Local Abbreviation self :=
  (assign platform link quality dir audio_only filename cookies format).

Lemma new_unfold :
  new platform link quality output_dir audio_only filename cookies format w
  = match _validate_inputs self w with
    | (Returns _, w1) =>
        match ensure_output_dir self w1 with
        | (Returns _, w') => (Returns self, w')
        | (Raises e, w') => (Raises e, w')
        end
    | (Raises e, w1) => (Raises e, w1)
    end.
Proof.
  unfold new, __init__, bind, ret. rewrite chosen.
  destruct (_validate_inputs _ w) as [[[]|e] w1]; [|reflexivity].
  destruct (ensure_output_dir _ w1) as [[[]|e] w2]; reflexivity.
Qed.

Lemma new_bad_platform :
  ~ In (_normalize_platform platform) recognized_platforms ->
  new platform link quality output_dir audio_only filename cookies format w
  = (Raises (ValueError ("Invalid platform '" +:+ _normalize_platform platform
                         +:+ "'. Supported platforms: youtube, instagram, twitter")), w).
Proof. intros H. rewrite new_unfold, validate_bad_platform; [reflexivity | exact H]. Qed.

Lemma new_bad_url :
  In (_normalize_platform platform) recognized_platforms ->
  PyStr.startswith_any link ["http://"; "https://"] = false ->
  new platform link quality output_dir audio_only filename cookies format w
  = (Raises (ValueError ("Invalid URL format: " +:+ link)), w).
Proof. intros H U. rewrite new_unfold, validate_bad_url; [reflexivity | exact H | exact U]. Qed.

Lemma new_bad_quality :
  In (_normalize_platform platform) recognized_platforms ->
  PyStr.startswith_any link ["http://"; "https://"] = true ->
  ~ In (PyStr.or_else quality "best") QUALITY_OPTIONS ->
  new platform link quality output_dir audio_only filename cookies format w
  = (Raises (ValueError ("Invalid quality '" +:+ PyStr.or_else quality "best"
                         +:+ "'. Supported qualities: 360, 480, 720, 1080, best")),
     after_validation self w).
Proof.
  intros H U Q. rewrite new_unfold, validate_bad_quality; [reflexivity | exact H | exact U | exact Q].
Qed.

Lemma new_bad_cookies :
  In (_normalize_platform platform) recognized_platforms ->
  PyStr.startswith_any link ["http://"; "https://"] = true ->
  In (PyStr.or_else quality "best") QUALITY_OPTIONS ->
  cookies_ok w cookies = false ->
  new platform link quality output_dir audio_only filename cookies format w
  = (Raises (FileNotFoundError ("Cookies file not found: " +:+ default "" cookies)),
     after_validation self w).
Proof.
  intros H U Q C. rewrite new_unfold, validate_bad_cookies; try assumption. reflexivity.
Qed.

Lemma new_valid :
  In (_normalize_platform platform) recognized_platforms ->
  PyStr.startswith_any link ["http://"; "https://"] = true ->
  In (PyStr.or_else quality "best") QUALITY_OPTIONS ->
  cookies_ok w cookies = true ->
  new platform link quality output_dir audio_only filename cookies format w
  = construct_after_validation self w.
Proof.
  intros H U Q C. rewrite new_unfold, validate_passes; try assumption. reflexivity.
Qed.

End construction.

(** An instance the constructor returns is the one line 48 and the
    assignments give. *)
Lemma new_returns_self (platform link : string) (quality output_dir : option string)
    (audio_only : bool) (filename cookies format : option string) (w w' : OS.world) (self : t) :
  new platform link quality output_dir audio_only filename cookies format w = (Returns self, w') ->
  exists dir,
    choose_output_dir output_dir w = (Returns dir, w)
    /\ self = assign platform link quality dir audio_only filename cookies format.
Proof.
  destruct (choose_output_dir_cases output_dir w) as [[dir E]|[_ E]].
  - rewrite (new_unfold _ _ _ _ _ _ _ _ _ _ E).
    destruct (_validate_inputs _ w) as [[[]|e] w1]; [|discriminate].
    destruct (ensure_output_dir _ w1) as [[[]|e] w2]; [|discriminate].
    intros [= <- _]. eauto.
  - rewrite (new_no_directory _ _ _ _ _ _ _ _ _ _ E). discriminate.
Qed.

(* ===================================================================== *)
(** ** The file tree: resolution and [mkdir] *)
(* ===================================================================== *)

Section tree.

Implicit Types (t : gmap (list string) OS.node) (d start parts : list string).

Lemma lookup_node_mono t t' p n :
  t ⊆ t' -> OS.lookup_node t p = Some n -> OS.lookup_node t' p = Some n.
Proof.
  intros S. destruct p; [trivial |]. unfold OS.lookup_node.
  intros H. exact (lookup_weaken _ _ _ _ H S).
Qed.

Lemma walk_mono t t' d parts d' :
  t ⊆ t' -> OS.walk t d parts = inr d' -> OS.walk t' d parts = inr d'.
Proof.
  intros S. revert d. induction parts as [|c rest IH]; intros d; simpl; [trivial |].
  destruct (OS.lookup_node t (OS.step d c)) as [[]|] eqn:L; try discriminate.
  rewrite (lookup_node_mono _ _ _ _ S L). apply IH.
Qed.

Lemma resolve_mono t t' start parts d' :
  t ⊆ t' -> OS.resolve t start parts = inr d' -> OS.resolve t' start parts = inr d'.
Proof.
  intros S. unfold OS.resolve. apply walk_mono, S.
Qed.

Lemma walk_app t d l1 l2 :
  OS.walk t d (l1 ++ l2)
  = match OS.walk t d l1 with
    | inr d' => OS.walk t d' l2
    | inl e => inl e
    end.
Proof.
  revert d. induction l1 as [|c l1 IH]; intros d; simpl; [reflexivity |].
  destruct (OS.lookup_node t (OS.step d c)) as [[]|]; auto.
Qed.

Lemma stat_nil t start : OS.stat t start [] = inr OS.Dir.
Proof. reflexivity. Qed.

Lemma stat_snoc t start init c :
  OS.stat t start (init ++ [c])
  = match OS.resolve t start init with
    | inl e => inl e
    | inr d => match OS.lookup_node t (OS.step d c) with
               | Some n => inr n
               | None => inl OS.ENOENT
               end
    end.
Proof.
  unfold OS.stat. rewrite removelast_last, last_last.
  destruct (OS.resolve t start init); [reflexivity |].
  destruct (init ++ [c]) eqn:X; [now destruct init | reflexivity].
Qed.

Lemma mkdir_nil refused t start : OS.mkdir refused t start [] = inl OS.EEXIST.
Proof. reflexivity. Qed.

Lemma mkdir_snoc refused t start init c :
  OS.mkdir refused t start (init ++ [c])
  = match OS.resolve t start init with
    | inl e => inl e
    | inr d =>
        if String.eqb c ".." then inl OS.EEXIST
        else match OS.lookup_node t (d ++ [c]) with
             | Some _ => inl OS.EEXIST
             | None =>
                 match OS.lookup_node t d with
                 | Some OS.Dir =>
                     match refused (d ++ [c]) with
                     | Some code => inl (OS.errno_of_code code)
                     | None => inr (<[d ++ [c] := OS.Dir]> t)
                     end
                 | Some OS.File => inl OS.ENOTDIR
                 | None => inl OS.ENOENT
                 end
             end
    end.
Proof.
  unfold OS.mkdir. rewrite removelast_last, last_last.
  destruct (OS.resolve t start init); [reflexivity |].
  destruct (init ++ [c]) eqn:X; [now destruct init | reflexivity].
Qed.

Lemma resolve_snoc t start init c :
  OS.resolve t start (init ++ [c])
  = match OS.resolve t start init with
    | inl e => inl e
    | inr d => match OS.lookup_node t (OS.step d c) with
               | Some OS.Dir => inr (OS.step d c)
               | Some OS.File => inl OS.ENOTDIR
               | None => inl OS.ENOENT
               end
    end.
Proof.
  unfold OS.resolve. rewrite walk_app. destruct (OS.walk t start init); reflexivity.
Qed.

(** A path is a directory exactly when it resolves as a whole. *)
Lemma stat_dir_resolve t start parts :
  OS.stat t start parts = inr OS.Dir <-> exists d, OS.resolve t start parts = inr d.
Proof.
  destruct parts as [|c init _] using rev_ind.
  - split; [eexists; reflexivity | reflexivity].
  - rewrite stat_snoc, resolve_snoc.
    destruct (OS.resolve t start init) as [e|d];
      [split; [intros; discriminate | intros [? ?]; discriminate] |].
    destruct (OS.lookup_node t (OS.step d c)) as [[]|]; split;
      try (intros; discriminate); try (intros [? ?]; discriminate); eauto.
Qed.

Lemma resolve_prefix t start l1 l2 d :
  OS.resolve t start (l1 ++ l2) = inr d -> exists d', OS.resolve t start l1 = inr d'.
Proof.
  unfold OS.resolve. rewrite walk_app. destruct (OS.walk t start l1); [discriminate | eauto].
Qed.

(** Every ancestor of a directory is a directory. *)
Lemma stat_dir_take t start parts n :
  OS.stat t start parts = inr OS.Dir -> OS.stat t start (take n parts) = inr OS.Dir.
Proof.
  rewrite !stat_dir_resolve. intros [d H].
  rewrite <- (take_drop n parts) in H. exact (resolve_prefix _ _ _ _ _ H).
Qed.

(** A successful [mkdir] adds one directory and touches nothing else. *)
Lemma mkdir_ok refused t start parts t' :
  OS.mkdir refused t start parts = inr t' ->
  OS.stat t' start parts = inr OS.Dir
  /\ t ⊆ t'
  /\ (forall k, t' !! k = Some OS.File -> t !! k = Some OS.File).
Proof.
  destruct parts as [|c init _] using rev_ind.
  { rewrite mkdir_nil. discriminate. }
  rewrite mkdir_snoc, stat_snoc.
  destruct (OS.resolve t start init) as [e|d] eqn:R; [discriminate |].
  destruct (String.eqb c "..") eqn:E; [discriminate |].
  destruct (OS.lookup_node t (d ++ [c])) eqn:L; [discriminate |].
  destruct (OS.lookup_node t d) as [[]|]; try discriminate.
  destruct (refused (d ++ [c])); [discriminate |].
  intros [= <-].
  assert (F : t !! (d ++ [c]) = None).
  { unfold OS.lookup_node in L. destruct (d ++ [c]) eqn:X; [now destruct d | exact L]. }
  assert (S : t ⊆ <[d ++ [c] := OS.Dir]> t) by (apply insert_subseteq, F).
  repeat split.
  - rewrite (resolve_mono _ _ _ _ _ S R).
    unfold OS.step. rewrite E. unfold OS.lookup_node.
    destruct (d ++ [c]) eqn:X; [now destruct d |].
    rewrite <- X, lookup_insert_eq. reflexivity.
  - exact S.
  - intros k. destruct (decide (d ++ [c] = k)) as [<-|N].
    + rewrite lookup_insert_eq. discriminate.
    + rewrite lookup_insert_ne by exact N. trivial.
Qed.

(** What a successful [mkdir] adds: one directory, at the place the path
    resolves to afterwards, where nothing was before. *)
Lemma mkdir_adds refused t start parts t' :
  OS.mkdir refused t start parts = inr t' ->
  exists k, t !! k = None /\ t' = <[k := OS.Dir]> t
            /\ OS.resolve t' start parts = inr k /\ refused k = None.
Proof.
  destruct parts as [|c init _] using rev_ind.
  { rewrite mkdir_nil. discriminate. }
  rewrite mkdir_snoc, resolve_snoc.
  destruct (OS.resolve t start init) as [e|d] eqn:R; [discriminate |].
  destruct (String.eqb c "..") eqn:E; [discriminate |].
  destruct (OS.lookup_node t (d ++ [c])) eqn:L; [discriminate |].
  destruct (OS.lookup_node t d) as [[]|]; try discriminate.
  destruct (refused (d ++ [c])) eqn:Rf; [discriminate |].
  intros [= <-].
  assert (F : t !! (d ++ [c]) = None).
  { unfold OS.lookup_node in L. destruct (d ++ [c]) eqn:X; [now destruct d | exact L]. }
  assert (S : t ⊆ <[d ++ [c] := OS.Dir]> t) by (apply insert_subseteq, F).
  exists (d ++ [c]). repeat split; try assumption.
  rewrite (resolve_mono _ _ _ _ _ S R).
  unfold OS.step. rewrite E. unfold OS.lookup_node.
  destruct (d ++ [c]) eqn:X; [now destruct d |].
  rewrite <- X, lookup_insert_eq. reflexivity.
Qed.

(** [mkdir] on an existing directory says [EEXIST]. *)
Lemma mkdir_existing refused t start parts :
  OS.stat t start parts = inr OS.Dir -> OS.mkdir refused t start parts = inl OS.EEXIST.
Proof.
  destruct parts as [|c init _] using rev_ind.
  { reflexivity. }
  rewrite mkdir_snoc, stat_snoc.
  destruct (OS.resolve t start init) as [e|d]; [discriminate |].
  unfold OS.step. destruct (String.eqb c ".."); [reflexivity |].
  destruct (OS.lookup_node t (d ++ [c])); [reflexivity | discriminate].
Qed.

(** Resolution never reports [EEXIST]. *)
Lemma walk_not_EEXIST t d parts : OS.walk t d parts <> inl OS.EEXIST.
Proof.
  revert d. induction parts as [|c rest IH]; intros d; simpl; [discriminate |].
  destruct (OS.lookup_node t (OS.step d c)) as [[]|]; try discriminate. apply IH.
Qed.

Lemma resolve_not_EEXIST t start parts : OS.resolve t start parts <> inl OS.EEXIST.
Proof.
  apply walk_not_EEXIST.
Qed.

End tree.

(* ===================================================================== *)
(** ** [Path.mkdir] *)
(* ===================================================================== *)

Section path_mkdir.

Lemma is_dir_stat (w : OS.world) (p : PosixPath.t) :
  OS.is_dir w p = true
  <-> PyStr.has_nul (PosixPath.str p) = false
      /\ OS.stat (OS.tree w) (OS.start_of w (PosixPath.is_absolute p)) (PosixPath.p_parts p)
         = inr OS.Dir.
Proof.
  unfold OS.is_dir. destruct (PyStr.has_nul _); [split; [discriminate | intros []; discriminate] |].
  destruct (OS.stat _ _ _) as [e|[]]; split; try discriminate; try (intros []; discriminate); auto.
Qed.

Lemma only_makes_refl (p : PosixPath.t) (w : OS.world) : only_makes p w w.
Proof. do 3 (split; [reflexivity |]). split; [reflexivity |]. intros k n H1 H2. congruence. Qed.

Lemma only_makes_trans (p : PosixPath.t) (w1 w2 w3 : OS.world) :
  only_makes p w1 w2 -> only_makes p w2 w3 -> only_makes p w1 w3.
Proof.
  intros (C1 & O1 & R1 & S1 & N1) (C2 & O2 & R2 & S2 & N2).
  split; [congruence |]. split; [congruence |]. split; [congruence |].
  split; [etransitivity; eassumption |].
  intros k n H3 H1.
  destruct (OS.tree w2 !! k) as [n2|] eqn:H2.
  - pose proof (lookup_weaken _ _ _ _ H2 S2) as H3'. rewrite H3 in H3'. injection H3' as ->.
    destruct (N1 _ _ H2 H1) as [-> [i Ri]]. split; [reflexivity |].
    exists i. exact (resolve_mono _ _ _ _ _ S2 Ri).
  - destruct (N2 _ _ H3 H2) as [-> [i Ri]]. split; [reflexivity |].
    exists i. unfold OS.start_of in *. rewrite C1 in Ri. exact Ri.
Qed.

Lemma only_makes_grows (p : PosixPath.t) (w w' : OS.world) : only_makes p w w' -> grows w w'.
Proof.
  intros (C & O & R & S & N). do 4 (split; [assumption |]).
  intros k H. destruct (OS.tree w !! k) as [n|] eqn:L.
  - pose proof (lookup_weaken _ _ _ _ L S) as H'. congruence.
  - destruct (N _ _ H L) as [E _]. discriminate.
Qed.

Lemma take_snoc_le (l : list string) (c : string) (n : nat) :
  take (Nat.min n (length l)) (l ++ [c]) = take n l.
Proof.
  destruct (Nat.le_gt_cases n (length l)) as [H|H].
  - rewrite Nat.min_l by exact H. apply take_app_le, H.
  - rewrite Nat.min_r by lia. rewrite take_app_le by lia.
    rewrite !take_ge by lia. reflexivity.
Qed.

(** What is made for the parent is made for the path. *)
Lemma only_makes_parent (r : PosixPath.root) (init : list string) (c : string)
    (w w' : OS.world) :
  only_makes {| PosixPath.p_root := r; PosixPath.p_parts := init |} w w' ->
  only_makes {| PosixPath.p_root := r; PosixPath.p_parts := init ++ [c] |} w w'.
Proof.
  intros (C & O & R & S & N). do 4 (split; [assumption |]).
  intros k n H H0. destruct (N _ _ H H0) as [-> [i Ri]]. split; [reflexivity |].
  exists (Nat.min i (length init)).
  unfold PosixPath.is_absolute in *. cbn [PosixPath.p_root PosixPath.p_parts] in *.
  rewrite take_snoc_le. exact Ri.
Qed.

Lemma grows_refl (w : OS.world) : grows w w.
Proof. repeat split; auto. Qed.

Lemma grows_trans (w1 w2 w3 : OS.world) : grows w1 w2 -> grows w2 w3 -> grows w1 w3.
Proof.
  intros (S1 & C1 & O1 & R1 & F1) (S2 & C2 & O2 & R2 & F2). repeat split.
  - etransitivity; eassumption.
  - congruence.
  - congruence.
  - congruence.
  - auto.
Qed.

(** The outcomes of [os.mkdir]. *)
Lemma os_mkdir_made (p : PosixPath.t) (w w' : OS.world) :
  os_mkdir p w = inr w' ->
  PyStr.has_nul (PosixPath.str p) = false
  /\ exists t', OS.mkdir (OS.mkdir_refused w) (OS.tree w)
                  (OS.start_of w (PosixPath.is_absolute p)) (PosixPath.p_parts p) = inr t'
                /\ w' = {| OS.tree := t'; OS.cwd := OS.cwd w; OS.stdout := OS.stdout w;
                           OS.mkdir_refused := OS.mkdir_refused w |}.
Proof.
  unfold os_mkdir. destruct (PyStr.has_nul _); [discriminate |].
  destruct (OS.mkdir _ _ _ _) as [e|t']; [discriminate |].
  intros [= <-]. eauto.
Qed.

Lemma os_mkdir_failed (p : PosixPath.t) (w : OS.world) (e : exn) :
  os_mkdir p w = inl e ->
  (PyStr.has_nul (PosixPath.str p) = true /\ e = ValueError "embedded null byte")
  \/ (PyStr.has_nul (PosixPath.str p) = false
      /\ exists en,
           OS.mkdir (OS.mkdir_refused w) (OS.tree w)
             (OS.start_of w (PosixPath.is_absolute p)) (PosixPath.p_parts p) = inl en
           /\ e = OSError en (Some (PosixPath.str p))).
Proof.
  unfold os_mkdir. destruct (PyStr.has_nul _); [intros [= <-]; auto |].
  destruct (OS.mkdir _ _ _ _) as [en|t']; [|discriminate].
  intros [= <-]. right. eauto.
Qed.

(** A directory [os.mkdir] made: it is there, and it is all that changed. *)
Lemma os_mkdir_returns (p : PosixPath.t) (w w' : OS.world) :
  os_mkdir p w = inr w' -> OS.is_dir w' p = true /\ only_makes p w w'.
Proof.
  intros K. apply os_mkdir_made in K as (Z & t' & K & ->).
  destruct (mkdir_ok _ _ _ _ _ K) as (D & S & _).
  destruct (mkdir_adds _ _ _ _ _ K) as (k & F & -> & R & _).
  split; [apply is_dir_stat; split; [exact Z | exact D] |].
  unfold only_makes. cbn [OS.tree OS.cwd OS.stdout OS.mkdir_refused].
  do 3 (split; [reflexivity |]). split; [exact S |].
  intros k0 n H H0. destruct (decide (k = k0)) as [<-|Ne].
  - rewrite lookup_insert_eq in H. injection H as <-. split; [reflexivity |].
    exists (length (PosixPath.p_parts p)). rewrite take_ge by lia. exact R.
  - rewrite lookup_insert_ne in H by exact Ne. congruence.
Qed.

(** The branch of [Path.mkdir] that forgives an error under [exist_ok]. *)
Ltac forgiven :=
  match goal with
  | |- context [negb ?ok || negb (OS.is_dir ?w ?p)] =>
      let B := fresh "B" in
      destruct (negb ok || negb (OS.is_dir w p)) eqn:B; [discriminate |];
      intros [= <-]; apply orb_false_elim in B as [_ B]; apply negb_false_iff in B;
      split; [exact B | apply only_makes_refl]
  end.

Lemma Path_mkdir_once_returns (p : PosixPath.t) (exist_ok : bool) (w w' : OS.world) :
  Path_mkdir_once p exist_ok w = (Returns tt, w') ->
  OS.is_dir w' p = true /\ only_makes p w w'.
Proof.
  unfold Path_mkdir_once.
  destruct (os_mkdir p w) as [e|w1] eqn:K.
  - destruct e as [| | |[]| | | | | | | |]; try discriminate; forgiven.
  - intros [= <-]. exact (os_mkdir_returns _ _ _ K).
Qed.

Lemma Path_mkdir_parents_returns (r : PosixPath.root) (rparts : list string) :
  forall (exist_ok : bool) (w w' : OS.world),
    Path_mkdir_parents r rparts exist_ok w = (Returns tt, w') ->
    OS.is_dir w' {| PosixPath.p_root := r; PosixPath.p_parts := rev rparts |} = true
    /\ only_makes {| PosixPath.p_root := r; PosixPath.p_parts := rev rparts |} w w'.
Proof.
  induction rparts as [|c rparent IH]; intros exist_ok w w'.
  - cbn [Path_mkdir_parents].
    destruct (os_mkdir _ w) as [e|w1] eqn:K.
    + destruct e as [| | |[]| | | | | | | |]; try discriminate; forgiven.
    + intros [= <-]. exact (os_mkdir_returns _ _ _ K).
  - cbn [Path_mkdir_parents].
    destruct (os_mkdir _ w) as [e|w1] eqn:K.
    + destruct e as [| | |[]| | | | | | | |]; try discriminate; try forgiven.
      unfold bind.
      destruct (Path_mkdir_parents r rparent true w) as [[[]|e] w1] eqn:P; [|discriminate].
      intros O. apply IH in P as [_ G1].
      apply Path_mkdir_once_returns in O as [D G2].
      split; [exact D |].
      apply (only_makes_parent r (rev rparent) c) in G1.
      exact (only_makes_trans _ _ _ _ G1 G2).
    + intros [= <-]. exact (os_mkdir_returns _ _ _ K).
Qed.

Lemma path_eta (p : PosixPath.t) :
  {| PosixPath.p_root := PosixPath.p_root p;
     PosixPath.p_parts := rev (rev (PosixPath.p_parts p)) |} = p.
Proof. rewrite rev_involutive. now destruct p. Qed.

(** [mkdir(parents=True)] that returns leaves a directory behind, and all it
    made are that directory and ancestors of it. *)
Lemma Path_mkdir_returns (p : PosixPath.t) (exist_ok : bool) (w w' : OS.world) :
  Path_mkdir p true exist_ok w = (Returns tt, w') ->
  OS.is_dir w' p = true /\ only_makes p w w'.
Proof.
  unfold Path_mkdir. intros H. apply Path_mkdir_parents_returns in H.
  now rewrite path_eta in H.
Qed.

(** On an existing directory it returns and changes nothing. *)
Lemma Path_mkdir_existing (p : PosixPath.t) (w : OS.world) :
  OS.is_dir w p = true -> Path_mkdir p true true w = (Returns tt, w).
Proof.
  intros D. unfold Path_mkdir.
  assert (K : os_mkdir p w = inl (OSError OS.EEXIST (Some (PosixPath.str p)))).
  { pose proof D as D'. apply is_dir_stat in D' as [Z S]. unfold os_mkdir.
    now rewrite Z, (mkdir_existing _ _ _ _ S). }
  rewrite <- (path_eta p) in D, K.
  destruct (rev (PosixPath.p_parts p)) as [|c rparent];
    cbn [Path_mkdir_parents]; rewrite K; cbn [negb orb]; rewrite D; reflexivity.
Qed.

(** Its only exceptions are those of [os.mkdir]. *)
Lemma Path_mkdir_once_raises (p : PosixPath.t) (exist_ok : bool) (w w' : OS.world) (e : exn) :
  Path_mkdir_once p exist_ok w = (Raises e, w') ->
  (exists en s, e = OSError en (Some s)) \/ e = ValueError "embedded null byte".
Proof.
  unfold Path_mkdir_once.
  destruct (os_mkdir p w) as [e1|w1] eqn:K; [|discriminate].
  apply os_mkdir_failed in K as [[_ ->]|(_ & en & _ & ->)].
  - intros [= <- _]. auto.
  - destruct en; try destruct (negb exist_ok || negb (OS.is_dir w p));
      intros [= <- _] || discriminate; eauto.
Qed.

Lemma Path_mkdir_parents_raises (r : PosixPath.root) (rparts : list string) :
  forall (exist_ok : bool) (w w' : OS.world) (e : exn),
    Path_mkdir_parents r rparts exist_ok w = (Raises e, w') ->
    (exists en s, e = OSError en (Some s)) \/ e = ValueError "embedded null byte".
Proof.
  induction rparts as [|c rparent IH]; intros exist_ok w w' e; cbn [Path_mkdir_parents].
  - destruct (os_mkdir _ w) as [e1|w1] eqn:K; [|discriminate].
    apply os_mkdir_failed in K as [[_ ->]|(_ & en & _ & ->)].
    + intros [= <- _]. auto.
    + destruct en; try destruct (negb exist_ok || negb (OS.is_dir w _));
        intros [= <- _] || discriminate; eauto.
  - destruct (os_mkdir _ w) as [e1|w1] eqn:K; [|discriminate].
    apply os_mkdir_failed in K as [[_ ->]|(_ & en & _ & ->)].
    + intros [= <- _]. auto.
    + destruct en; try destruct (negb exist_ok || negb (OS.is_dir w _));
        try (intros [= <- _] || discriminate; eauto; fail).
      unfold bind.
      destruct (Path_mkdir_parents r rparent true w) as [[[]|e1] w1] eqn:P.
      * apply Path_mkdir_once_raises.
      * intros [= <- <-]. exact (IH _ _ _ _ P).
Qed.

Lemma Path_mkdir_raises (p : PosixPath.t) (parents exist_ok : bool) (w w' : OS.world) (e : exn) :
  Path_mkdir p parents exist_ok w = (Raises e, w') ->
  (exists en s, e = OSError en (Some s)) \/ e = ValueError "embedded null byte".
Proof.
  unfold Path_mkdir. destruct parents;
    [apply Path_mkdir_parents_raises | apply Path_mkdir_once_raises].
Qed.

End path_mkdir.

(* ===================================================================== *)
(** ** Validation and construction, continued *)
(* ===================================================================== *)

Section frames.

Lemma same_tree_is_dir (w w1 : OS.world) (p : PosixPath.t) :
  OS.tree w1 = OS.tree w -> OS.cwd w1 = OS.cwd w -> OS.is_dir w1 p = OS.is_dir w p.
Proof. intros T C. unfold OS.is_dir, OS.start_of. now rewrite T, C. Qed.

Lemma ensure_returns (self : t) (w w' : OS.world) :
  ensure_output_dir self w = (Returns tt, w') ->
  OS.is_dir w' (output_dir self) = true /\ only_makes (output_dir self) w w'.
Proof. apply Path_mkdir_returns. Qed.

Lemma ensure_raises (self : t) (w w' : OS.world) (e : exn) :
  ensure_output_dir self w = (Raises e, w') ->
  (exists en s, e = OSError en (Some s)) \/ e = ValueError "embedded null byte".
Proof. apply Path_mkdir_raises. Qed.

Lemma ensure_existing (self : t) (w : OS.world) :
  OS.is_dir w (output_dir self) = true -> ensure_output_dir self w = (Returns tt, w).
Proof. apply Path_mkdir_existing. Qed.

Lemma construct_returns (self s : t) (w w' : OS.world) :
  construct_after_validation self w = (Returns s, w') ->
  s = self /\ OS.is_dir w' (output_dir self) = true
  /\ only_makes (output_dir self) (after_validation self w) w'.
Proof.
  unfold construct_after_validation.
  destruct (ensure_output_dir _ _) as [[[]|e] w2] eqn:K; [|discriminate].
  intros [= <- <-]. destruct (ensure_returns _ _ _ K). auto.
Qed.

Lemma construct_raises (self : t) (w w' : OS.world) (e : exn) :
  construct_after_validation self w = (Raises e, w') ->
  (exists en s, e = OSError en (Some s)) \/ e = ValueError "embedded null byte".
Proof.
  unfold construct_after_validation.
  destruct (ensure_output_dir _ _) as [[[]|e1] w2] eqn:K; [discriminate |].
  intros [= <- <-]. exact (ensure_raises _ _ _ _ K).
Qed.

Lemma construct_existing (self : t) (w : OS.world) :
  OS.is_dir w (output_dir self) = true ->
  construct_after_validation self w = (Returns self, after_validation self w).
Proof.
  intros D. destruct (after_validation_frame self w) as (T & C & _).
  rewrite <- (same_tree_is_dir _ _ _ T C) in D.
  unfold construct_after_validation.
  now rewrite (ensure_existing _ _ D).
Qed.

(** Every exception of the constructor: the error of [os.getcwd()], one of
    the validator's four, or one of [mkdir]. *)
Lemma new_raises_kinds (platform link : string) (quality output_dir : option string)
    (audio_only : bool) (filename cookies format : option string) (w w' : OS.world) (e : exn) :
  new platform link quality output_dir audio_only filename cookies format w = (Raises e, w') ->
  (exists m, e = ValueError m) \/ (exists m, e = FileNotFoundError m)
  \/ (exists en s, e = OSError en s).
Proof.
  destruct (choose_output_dir_cases output_dir w) as [[dir E]|[_ E]].
  - rewrite (new_unfold _ _ _ _ _ _ _ _ _ _ E).
    destruct (_validate_inputs _ w) as [[[]|e1] w1] eqn:V.
    + destruct (ensure_output_dir _ w1) as [[[]|e2] w2] eqn:K; [discriminate |].
      intros [= <- _]. destruct (ensure_raises _ _ _ _ K) as [(en & s & ->)| ->]; eauto.
    + intros [= <- _]. destruct (validate_raises _ _ _ _ V) as [(m & -> & _)|[m ->]]; eauto.
  - rewrite (new_no_directory _ _ _ _ _ _ _ _ _ _ E). intros [= <- _]. eauto 6.
Qed.

(** An instance the constructor returns has passed validation and has its
    output directory on disk. *)
Lemma new_returns_steps (platform link : string) (quality output_dir : option string)
    (audio_only : bool) (filename cookies format : option string) (w w' : OS.world) (self : t) :
  new platform link quality output_dir audio_only filename cookies format w = (Returns self, w') ->
  exists dir w1,
    choose_output_dir output_dir w = (Returns dir, w)
    /\ self = assign platform link quality dir audio_only filename cookies format
    /\ _validate_inputs self w = (Returns tt, w1)
    /\ ensure_output_dir self w1 = (Returns tt, w').
Proof.
  intros H. destruct (new_returns_self _ _ _ _ _ _ _ _ _ _ _ H) as (dir & E & ->).
  rewrite (new_unfold _ _ _ _ _ _ _ _ _ _ E) in H.
  destruct (_validate_inputs _ w) as [[[]|e1] w1] eqn:V; [|discriminate].
  destruct (ensure_output_dir _ w1) as [[[]|e2] w2] eqn:K; [|discriminate].
  injection H as <-. eauto 6.
Qed.

End frames.

(* ===================================================================== *)
(** ** The option builder *)
(* ===================================================================== *)

Section options.

Lemma opts_format (self : t) :
  _get_ydl_opts self !! "format" = Some (VStr (_get_quality_format_selector self)).
Proof.
  unfold _get_ydl_opts.
  destruct (PyStr.truthy (cookies self)), (audio_only self),
    (PyStr.truthy (filename self)), (PyStr.truthy (format self));
    cbn [negb]; by simplify_map_eq.
Qed.

Lemma opts_postprocessors_audio (self : t) :
  audio_only self = true ->
  _get_ydl_opts self !! "postprocessors"
  = Some (VPostprocessors [extract_audio (PyStr.or_else (format self) "mp3")]).
Proof.
  intros A. unfold _get_ydl_opts, extract_audio. rewrite A.
  destruct (PyStr.truthy (cookies self)), (PyStr.truthy (filename self));
    cbn [negb]; by simplify_map_eq.
Qed.

Lemma opts_postprocessors_video (self : t) :
  audio_only self = false -> _get_ydl_opts self !! "postprocessors" = None.
Proof.
  intros A. unfold _get_ydl_opts. rewrite A.
  destruct (PyStr.truthy (cookies self)), (PyStr.truthy (format self));
    by simplify_map_eq.
Qed.

Lemma opts_outtmpl_video (self : t) :
  audio_only self = false ->
  _get_ydl_opts self !! "outtmpl" = Some (VStr (_get_output_template self)).
Proof.
  intros A. unfold _get_ydl_opts. rewrite A.
  destruct (PyStr.truthy (cookies self)), (PyStr.truthy (format self));
    by simplify_map_eq.
Qed.

End options.

(* ===================================================================== *)
(** ** The output directory of line 48, and ancestors *)
(* ===================================================================== *)

Section available.

Variables (w : OS.world) (output_dir : option string).

Lemma choose_output_dir_available :
  output_dir_available w output_dir = true ->
  exists dir, choose_output_dir output_dir w = (Returns dir, w).
Proof.
  unfold output_dir_available, choose_output_dir, Path_cwd, ret.
  destruct (PyStr.truthy output_dir); [eauto |]. cbn [orb].
  destruct (OS.getcwd w); [discriminate | eauto].
Qed.

Lemma choose_output_dir_unavailable :
  output_dir_available w output_dir = false ->
  choose_output_dir output_dir w = (Raises (OSError OS.ENOENT None), w).
Proof.
  unfold output_dir_available, choose_output_dir, Path_cwd, ret, OS.getcwd.
  destruct (PyStr.truthy output_dir); [discriminate |]. cbn [orb].
  destruct (OS.lookup_node (OS.tree w) (OS.cwd w)) as [[]|]; try discriminate; reflexivity.
Qed.

Lemma chosen_is_available (dir : PosixPath.t) :
  choose_output_dir output_dir w = (Returns dir, w) -> output_dir_available w output_dir = true.
Proof.
  intros E. destruct (output_dir_available w output_dir) eqn:A; [reflexivity |].
  rewrite (choose_output_dir_unavailable A) in E. discriminate.
Qed.

End available.

Section nul.

Lemma has_nul_append (a b : string) :
  PyStr.has_nul (a +:+ b) = PyStr.has_nul a || PyStr.has_nul b.
Proof.
  unfold PyStr.has_nul. induction a as [|x a IH].
  - rewrite append_nil. reflexivity.
  - rewrite append_cons. cbn [PyStr.contains]. rewrite IH.
    change (String.prefix (String (ascii_of_nat 0) "") (String x (a +:+ b)))
      with (if ascii_dec (ascii_of_nat 0) x then String.prefix "" (a +:+ b) else false).
    change (String.prefix (String (ascii_of_nat 0) "") (String x a))
      with (if ascii_dec (ascii_of_nat 0) x then String.prefix "" a else false).
    destruct (ascii_dec (ascii_of_nat 0) x).
    + now destruct (a +:+ b), a.
    + cbn [orb]. reflexivity.
Qed.

Lemma has_nul_join (l : list string) :
  PyStr.has_nul (PyStr.join "/" l) = existsb PyStr.has_nul l.
Proof.
  unfold PyStr.join. induction l as [|x l IH]; [reflexivity |].
  destruct l as [|y l].
  - cbn [String.concat existsb]. now rewrite orb_false_r.
  - change (String.concat "/" (x :: y :: l)) with (x +:+ "/" +:+ String.concat "/" (y :: l)).
    rewrite !has_nul_append, IH. reflexivity.
Qed.

Lemma has_nul_str (p : PosixPath.t) :
  PyStr.has_nul (PosixPath.str p) = existsb PyStr.has_nul (PosixPath.p_parts p).
Proof.
  destruct p as [r parts]. unfold PosixPath.str. cbn [PosixPath.p_root PosixPath.p_parts].
  destruct r, parts as [|c parts]; try reflexivity;
    rewrite has_nul_append, has_nul_join; reflexivity.
Qed.

Lemma existsb_take {A} (f : A -> bool) (l : list A) (n : nat) :
  existsb f l = false -> existsb f (take n l) = false.
Proof.
  revert n. induction l as [|x l IH]; intros [|n]; simpl; try reflexivity.
  intros H. apply orb_false_elim in H as [-> H]. exact (IH _ H).
Qed.

(** Every ancestor of a directory is a directory. *)
Lemma is_dir_ancestor (w : OS.world) (p : PosixPath.t) (n : nat) :
  OS.is_dir w p = true -> OS.is_dir w (ancestor p n) = true.
Proof.
  rewrite !is_dir_stat. intros [Z S]. split.
  - rewrite has_nul_str in *. apply existsb_take, Z.
  - exact (stat_dir_take _ _ _ _ S).
Qed.

End nul.

(* ===================================================================== *)
(** ** Last components, and absolute paths *)
(* ===================================================================== *)

Section last_component.

Lemma split_on_nonempty (sep : ascii) (s : string) : PyStr.split_on sep s <> [].
Proof.
  destruct s as [|c r]; simpl; [discriminate |].
  destruct (Ascii.eqb c sep); [discriminate |].
  destruct (PyStr.split_on sep r); discriminate.
Qed.

Lemma contains_slash_cons (c : ascii) (r : string) :
  PyStr.contains "/" (String c r) = Ascii.eqb c "/" || PyStr.contains "/" r.
Proof.
  cbn [PyStr.contains]. f_equal.
  change (String.prefix "/" (String c r))
    with (if ascii_dec "/" c then String.prefix "" r else false).
  destruct (ascii_dec "/" c) as [<-|N].
  - now destruct r.
  - symmetry. apply Ascii.eqb_neq. congruence.
Qed.

Lemma split_on_slash_free (b : string) : slash_free b = true -> PyStr.split_on "/" b = [b].
Proof.
  unfold slash_free. induction b as [|c r IH]; [reflexivity |].
  rewrite contains_slash_cons. intros H. apply negb_true_iff, orb_false_elim in H as [Hc Hr].
  simpl. rewrite Hc, IH by (now rewrite Hr). reflexivity.
Qed.

(** Appending a slash-free string extends the last segment. *)
Lemma split_on_app (a b : string) :
  slash_free b = true ->
  PyStr.split_on "/" (a +:+ b)
  = removelast (PyStr.split_on "/" a) ++ [List.last (PyStr.split_on "/" a) "" +:+ b].
Proof.
  intros B. induction a as [|c r IH].
  - rewrite append_nil. simpl. now apply split_on_slash_free.
  - rewrite append_cons. cbn [PyStr.split_on]. rewrite IH.
    pose proof (split_on_nonempty "/" r) as N.
    destruct (Ascii.eqb c "/").
    + destruct (PyStr.split_on "/" r) as [|w0 ws0]; [contradiction | reflexivity].
    + destruct (PyStr.split_on "/" r) as [|w0 [|w1 ws]]; [contradiction | reflexivity |].
      reflexivity.
Qed.

Lemma is_name_with_ext (x ext : string) :
  ext <> "" -> PosixPath.is_name (x +:+ "." +:+ ext) = true.
Proof.
  intros N. unfold PosixPath.is_name.
  assert (L : 2 <= String.length (x +:+ "." +:+ ext)).
  { rewrite !length_append. destruct ext; [contradiction | simpl; lia]. }
  destruct (String.eqb_spec (x +:+ "." +:+ ext) "") as [E|_];
    [rewrite E in L; simpl in L; lia |].
  destruct (String.eqb_spec (x +:+ "." +:+ ext) ".") as [E|_];
    [rewrite E in L; simpl in L; lia |].
  reflexivity.
Qed.

Lemma slash_free_dot (ext : string) : slash_free ext = true -> slash_free ("." +:+ ext) = true.
Proof.
  unfold slash_free. change ("." +:+ ext) with (String "." ext).
  rewrite contains_slash_cons. trivial.
Qed.

(** A path string ending in [.ext] parses to a path whose last component
    ends in [.ext]. *)
Lemma Path_with_ext (s ext : string) :
  ext <> "" -> slash_free ext = true ->
  exists x, ends_in (x +:+ "." +:+ ext) (PosixPath.Path (s +:+ "." +:+ ext)).
Proof.
  intros N F. exists (List.last (PyStr.split_on "/" s) "").
  exists (List.filter PosixPath.is_name (removelast (PyStr.split_on "/" s))).
  unfold PosixPath.Path, PosixPath.components. cbn [PosixPath.p_parts].
  rewrite (split_on_app s _ (slash_free_dot _ F)), List.filter_app.
  cbn [List.filter]. now rewrite (is_name_with_ext _ _ N).
Qed.

Lemma join_ends_in (y : string) (p q : PosixPath.t) :
  ends_in y q -> ends_in y (PosixPath.join p q).
Proof.
  intros [l E]. unfold PosixPath.join. destruct (PosixPath.is_absolute q).
  - now exists l.
  - exists (PosixPath.p_parts p ++ l). cbn [PosixPath.p_parts]. now rewrite E, app_assoc.
Qed.

Lemma str_ends_in (y : string) (p : PosixPath.t) :
  ends_in y p -> exists pre, PosixPath.str p = pre +:+ y.
Proof.
  intros [l E]. destruct p as [r parts]. cbn [PosixPath.p_parts] in E. subst parts.
  destruct (join_snoc "/" l y) as [pre J].
  exists (PosixPath.root_str r +:+ pre).
  unfold PosixPath.str. cbn [PosixPath.p_root PosixPath.p_parts].
  rewrite append_assoc, <- J.
  destruct r; try reflexivity.
  destruct (l ++ [y]) eqn:P; [now destruct l | reflexivity].
Qed.

Lemma str_endswith_ext (x ext : string) (p : PosixPath.t) :
  ends_in (x +:+ "." +:+ ext) p -> PyStr.endswith (PosixPath.str p) ("." +:+ ext) = true.
Proof.
  intros H. destruct (str_ends_in _ _ H) as [pre ->].
  rewrite <- (append_assoc pre x ("." +:+ ext)). apply endswith_append.
Qed.


Lemma prefix_slash_cons (c : ascii) (r : string) :
  String.prefix "/" (String c r) = Ascii.eqb c "/".
Proof.
  change (String.prefix "/" (String c r))
    with (if ascii_dec "/" c then String.prefix "" r else false).
  destruct (ascii_dec "/" c) as [<-|N]; [now destruct r |].
  symmetry. apply Ascii.eqb_neq. congruence.
Qed.

Lemma parse_root_slash (s : string) :
  PosixPath.is_absolute (PosixPath.Path (String "/" s)) = true.
Proof.
  unfold PosixPath.is_absolute, PosixPath.Path, PosixPath.parse_root.
  cbn [PosixPath.p_root].
  destruct (String.prefix "///" (String "/" s)); [reflexivity |].
  destruct (String.prefix "//" (String "/" s)); [reflexivity |].
  replace (String.prefix "/" (String "/" s)) with true; [reflexivity |].
  simpl. now destruct s.
Qed.

(** A parsed path is absolute exactly when the string starts with a slash. *)
Lemma Path_is_absolute (s : string) :
  PosixPath.is_absolute (PosixPath.Path s) = String.prefix "/" s.
Proof.
  destruct s as [|c r]; [reflexivity |].
  rewrite prefix_slash_cons. destruct (Ascii.eqb_spec c "/") as [->|N].
  - apply parse_root_slash.
  - unfold PosixPath.is_absolute, PosixPath.Path, PosixPath.parse_root. cbn [PosixPath.p_root].
    assert (X : forall t, String.prefix (String "/" t) (String c r) = false).
    { intros t. change (String.prefix (String "/" t) (String c r))
        with (if ascii_dec "/" c then String.prefix t r else false).
      destruct (ascii_dec "/" c); [congruence | reflexivity]. }
    now rewrite !X.
Qed.

Lemma str_of_absolute (p : PosixPath.t) :
  PosixPath.is_absolute p = true -> String.prefix "/" (PosixPath.str p) = true.
Proof.
  destruct p as [[] parts]; unfold PosixPath.is_absolute, PosixPath.str;
    cbn [PosixPath.p_root PosixPath.p_parts PosixPath.root_str]; [discriminate | |]; intros _;
    now rewrite append_cons, prefix_slash_cons.
Qed.


End last_component.

(* ===================================================================== *)
(** ** [Path.absolute] *)
(* ===================================================================== *)

Section path_absolute.

Variables (p : PosixPath.t) (w : OS.world).

Lemma getcwd_host (w0 : OS.world) :
  OS.tree w0 = OS.tree w -> OS.cwd w0 = OS.cwd w -> OS.getcwd w0 = OS.getcwd w.
Proof. intros T C. unfold OS.getcwd. now rewrite T, C. Qed.

Lemma getcwd_error (e : OS.errno) : OS.getcwd w = inl e -> e = OS.ENOENT.
Proof.
  unfold OS.getcwd. destruct (OS.lookup_node _ _) as [[]|]; intros [= <-] || discriminate;
    reflexivity.
Qed.

(** [absolute] reads the host and leaves it as it is. *)
Lemma Path_absolute_world (r : result PosixPath.t) (w' : OS.world) :
  Path_absolute p w = (r, w') -> w' = w.
Proof.
  unfold Path_absolute, Path_cwd, bind, ret.
  destruct (PosixPath.is_absolute p); [now intros [= _ <-] |].
  destruct (OS.getcwd w); now intros [= _ <-].
Qed.

(** Its outcome is the same in any world with the same tree and working
    directory. *)
Lemma Path_absolute_host (w0 : OS.world) :
  OS.tree w0 = OS.tree w -> OS.cwd w0 = OS.cwd w ->
  Path_absolute p w0 = (fst (Path_absolute p w), w0).
Proof.
  intros T C. unfold Path_absolute, Path_cwd, bind, ret.
  destruct (PosixPath.is_absolute p); [reflexivity |].
  rewrite (getcwd_host _ T C). destruct (OS.getcwd w); reflexivity.
Qed.

Lemma Path_absolute_returns (q : PosixPath.t) (w' : OS.world) :
  Path_absolute p w = (Returns q, w') ->
  PosixPath.is_absolute q = true /\ forall y, ends_in y p -> ends_in y q.
Proof.
  unfold Path_absolute, Path_cwd, bind, ret.
  destruct (PosixPath.is_absolute p) eqn:A; [intros [= <- _]; auto |].
  unfold OS.getcwd. destruct (OS.lookup_node _ _) as [[]|]; try discriminate.
  intros [= <- _]. split.
  - unfold PosixPath.join. now rewrite A.
  - intros y. apply join_ends_in.
Qed.

(** It fails only for a relative path in a working directory that is gone. *)
Lemma Path_absolute_raises (e : exn) (w' : OS.world) :
  Path_absolute p w = (Raises e, w') ->
  e = OSError OS.ENOENT None
  /\ PosixPath.is_absolute p = false /\ OS.getcwd w = inl OS.ENOENT.
Proof.
  unfold Path_absolute, Path_cwd, bind, ret.
  destruct (PosixPath.is_absolute p); [discriminate |].
  destruct (OS.getcwd w) as [en|c] eqn:G; [|discriminate].
  pose proof (getcwd_error _ G) as ->. intros [= <- _]. auto.
Qed.


End path_absolute.

(* ===================================================================== *)
(** ** [download] *)
(* ===================================================================== *)

Section download_body.

Variables (host_str : exn -> string) (self : t).

(** The lines before the download: they touch the console only, and fail
    only where [output_dir.absolute()] does. *)
Lemma announce_outcome (w w0 : OS.world) (r : result unit) :
  announce self w = (r, w0) ->
  OS.tree w0 = OS.tree w /\ OS.cwd w0 = OS.cwd w /\ OS.mkdir_refused w0 = OS.mkdir_refused w
  /\ (r = Returns tt
      \/ (r = Raises (OSError OS.ENOENT None)
          /\ PosixPath.is_absolute (output_dir self) = false
          /\ OS.getcwd w = inl OS.ENOENT)).
Proof.
  unfold announce, bind, print, ret.
  destruct (PyStr.truthy (format self)), (audio_only self); cbv beta iota;
    match goal with
    | |- context [Path_absolute ?p ?w1] =>
        rewrite (Path_absolute_host p w w1 eq_refl eq_refl);
        destruct (Path_absolute p w) as [[q|e] wq] eqn:P
    end;
    cbn [fst]; intros [= <- <-]; cbn [OS.tree OS.cwd OS.mkdir_refused]; auto;
    apply Path_absolute_raises in P as (-> & A & G);
    do 3 (split; [reflexivity |]); right; auto.
Qed.


(** The path computation reads the host and leaves it as it is. *)
Lemma final_path_world (ydl : YoutubeDL) (info : option (gmap string info_value))
    (w w' : OS.world) (r : result PosixPath.t) :
  final_path self ydl info w = (r, w') -> w' = w.
Proof.
  unfold final_path, bind, lift, ret.
  destruct (PyStr.truthy (filename self)).
  - destruct (audio_only self);
      [|destruct (PyStr.truthy (format self));
        [|destruct (info_get_ext info) as [i|e]; [|now intros [= _ <-]]]];
      cbv beta iota;
      match goal with
      | |- context [str_add ?a ?b] => destruct (str_add a b) as [f|e]; [|now intros [= _ <-]]
      end; apply Path_absolute_world.
  - destruct (prepare_filename ydl info) as [fn|e]; [|now intros [= _ <-]].
    destruct (audio_only self); [|destruct (PyStr.truthy (format self))];
      apply Path_absolute_world.
Qed.

(** Without the library, [download] exits. *)
Lemma download_without_library (suppress_output : bool) (w : OS.world) :
  download host_str None self suppress_output w
  = (Raises (SystemExit 1),
     if suppress_output then w
     else with_line w
            "Error: yt-dlp is not installed. Please install it with: pip install yt-dlp").
Proof. destruct suppress_output; reflexivity. Qed.

End download_body.

Section download_outcomes.

Variables (host_str : exn -> string) (self : t).

(** What the path computation can raise. *)
Lemma final_path_raises (ydl : YoutubeDL) (info : option (gmap string info_value))
    (w w' : OS.world) (e : exn) :
  final_path self ydl info w = (Raises e, w') ->
  e = AttributeError \/ e = TypeError
  \/ (e = OSError OS.ENOENT None /\ OS.getcwd w = inl OS.ENOENT)
  \/ prepare_filename ydl info = Raises e.
Proof.
  unfold final_path, bind, lift, ret.
  destruct (PyStr.truthy (filename self)).
  - assert (G : forall f, Path_absolute (output_dir self // f) w = (Raises e, w') ->
                          e = AttributeError \/ e = TypeError
                          \/ (e = OSError OS.ENOENT None /\ OS.getcwd w = inl OS.ENOENT)
                          \/ prepare_filename ydl info = Raises e).
    { intros f P. apply Path_absolute_raises in P as (-> & _ & G). auto. }
    destruct (audio_only self); [apply G |].
    destruct (PyStr.truthy (format self)); [apply G |].
    destruct info as [d|]; cbn [info_get_ext]; [|intros [= <- _]; auto].
    destruct (default (IStr "mp4") (d !! "ext")); cbn [str_add]; [apply G |].
    intros [= <- _]. auto.
  - destruct (prepare_filename ydl info) as [fn|e0]; [|intros [= <- _]; auto].
    destruct (audio_only self); [|destruct (PyStr.truthy (format self))];
      intros P; apply Path_absolute_raises in P as (-> & _ & G); auto.
Qed.

(** [download] returns only through the end of its [try] body; [w0] is the
    world after the announcement. *)
Lemma download_returns
    (yt_dlp : option (gmap string ydl_value -> result YoutubeDL)) (suppress_output : bool)
    (w w' : OS.world) (path : string) :
  download host_str yt_dlp self suppress_output w = (Returns path, w') ->
  exists new_YoutubeDL ydl info p w0,
    yt_dlp = Some new_YoutubeDL
    /\ new_YoutubeDL (_get_ydl_opts self) = Returns ydl
    /\ extract_info ydl (link self) false = Returns info
    /\ ydl_download ydl [link self] = Returns tt
    /\ OS.tree w0 = OS.tree w /\ OS.cwd w0 = OS.cwd w
    /\ final_path self ydl info w0 = (Returns p, w0)
    /\ path = PosixPath.str p
    /\ OS.tree w' = OS.tree w /\ OS.cwd w' = OS.cwd w.
Proof.
  unfold download. destruct yt_dlp as [mk|]; [|destruct suppress_output; discriminate].
  unfold bind at 1.
  destruct ((if negb suppress_output then announce self else ret tt) w) as [[[]|e0] w0] eqn:A;
    [|discriminate].
  assert (F0 : OS.tree w0 = OS.tree w /\ OS.cwd w0 = OS.cwd w).
  { destruct suppress_output; cbn [negb] in A.
    - injection A as <-. auto.
    - apply announce_outcome in A. tauto. }
  destruct F0 as [T0 C0].
  unfold try_except, bind, lift, ret, sys_exit, raise, say, print.
  destruct (mk (_get_ydl_opts self)) as [ydl|e] eqn:Y;
    [|destruct e, suppress_output; discriminate].
  destruct (extract_info ydl (link self) false) as [info|e] eqn:I;
    [|destruct e, suppress_output; discriminate].
  destruct (ydl_download ydl [link self]) as [[]|e] eqn:D;
    [|destruct e, suppress_output; discriminate].
  destruct (final_path self ydl info w0) as [[p|e] w1] eqn:F;
    [|destruct e, suppress_output; discriminate].
  pose proof (final_path_world _ _ _ _ _ _ F) as ->.
  destruct suppress_output; intros [= <- <-]; exists mk, ydl, info, p, w0; auto 12.
Qed.



(** What interactive [download] can raise: its own exit, the error of line
    214, or what the library raised that is no [Exception]. *)
Lemma download_interactive_raises
    (yt_dlp : option (gmap string ydl_value -> result YoutubeDL)) (w w' : OS.world) (e : exn) :
  download host_str yt_dlp self false w = (Raises e, w') ->
  e = SystemExit 1
  \/ (e = OSError OS.ENOENT None
      /\ PosixPath.is_absolute (output_dir self) = false /\ OS.getcwd w = inl OS.ENOENT)
  \/ (is_Exception e = false
      /\ exists new_YoutubeDL, yt_dlp = Some new_YoutubeDL
                               /\ library_raised new_YoutubeDL self e).
Proof.
  unfold download. destruct yt_dlp as [mk|]; [|intros [= <- _]; auto].
  unfold bind at 1. cbn [negb].
  destruct (announce self w) as [[[]|e0] w0] eqn:A.
  2:{ intros [= <- _]. apply announce_outcome in A as (_ & _ & _ & [A|A]);
        [discriminate | injection (proj1 A) as ->; tauto]. }
  unfold try_except, bind, lift, ret, say, sys_exit, raise, print. cbn [negb].
  destruct (mk (_get_ydl_opts self)) as [ydl|e0] eqn:Y.
  2:{ destruct e0; intros [= <- <-];
        first [left; reflexivity
              | right; right; split;
                [reflexivity | eexists; split; [reflexivity | left; exact Y]]]. }
  destruct (extract_info ydl (link self) false) as [info|e0] eqn:I.
  2:{ destruct e0; intros [= <- <-];
        first [left; reflexivity
              | right; right; split;
                [reflexivity
                | eexists; split; [reflexivity | right; exists ydl; split; [exact Y | auto]]]]. }
  destruct (ydl_download ydl [link self]) as [[]|e0] eqn:D.
  2:{ destruct e0; intros [= <- <-];
        first [left; reflexivity
              | right; right; split;
                [reflexivity
                | eexists; split; [reflexivity | right; exists ydl; split; [exact Y | auto]]]]. }
  destruct (final_path self ydl info w0) as [[p|e0] w1] eqn:F; [discriminate |].
  destruct (final_path_raises _ _ _ _ _ F) as [->|[->|[[-> _]|P]]];
    try (intros [= <- <-]; left; reflexivity).
  destruct e0; intros [= <- <-];
    first [left; reflexivity
          | right; right; split;
            [reflexivity
            | eexists; split; [reflexivity | right; exists ydl; split; [exact Y | eauto]]]].
Qed.


End download_outcomes.

(* ===================================================================== *)
(** ** The claims *)
(* ===================================================================== *)

(** C1, as stated, does not hold: for platform youtube, the link
    https://youtube.com/watch?v=abc, quality best and output directory
    [./out], the output template of the options dict is not
    [./out/%(title)s.%(ext)s]: pathlib drops the leading [.] component. *)
Lemma youtube_best_template_drops_dot :
  ~ (forall (w w' : OS.world) (self : t),
        new "youtube" "https://youtube.com/watch?v=abc" (Some "best") (Some "./out")
            false None None None w = (Returns self, w') ->
        _get_ydl_opts self !! "format" = Some (VStr "bestvideo+bestaudio/best")
        /\ _get_ydl_opts self !! "outtmpl" = Some (VStr "./out/%(title)s.%(ext)s")
        /\ _get_ydl_opts self !! "postprocessors" = None).
Proof.
  intros H.
  destruct (new "youtube" "https://youtube.com/watch?v=abc" (Some "best") (Some "./out")
                false None None None sample_world) as [[self|e] w'] eqn:N;
    [|vm_compute in N; discriminate].
  destruct (H _ _ _ N) as (_ & T & _).
  apply new_returns_self in N as (dir & E & ->).
  rewrite (choose_output_dir_given (Some "./out") sample_world eq_refl) in E.
  injection E as <-. vm_compute in T. discriminate.
Qed.

(** C1 (amended): for platform youtube, the link
    https://youtube.com/watch?v=abc, quality best, output directory [./out],
    video mode and no filename, cookies or format, the options dict has the
    format selector [bestvideo+bestaudio/best], the output template
    [out/%(title)s.%(ext)s] and no post-processor list. *)
Theorem youtube_best_options (w w' : OS.world) (self : t) :
  new "youtube" "https://youtube.com/watch?v=abc" (Some "best") (Some "./out")
      false None None None w = (Returns self, w') ->
  _get_ydl_opts self !! "format" = Some (VStr "bestvideo+bestaudio/best")
  /\ _get_ydl_opts self !! "outtmpl" = Some (VStr "out/%(title)s.%(ext)s")
  /\ _get_ydl_opts self !! "postprocessors" = None.
Proof.
  intros N. apply new_returns_self in N as (dir & E & ->).
  rewrite (choose_output_dir_given (Some "./out") w eq_refl) in E. injection E as <-.
  rewrite opts_format, opts_outtmpl_video, opts_postprocessors_video by reflexivity.
  repeat split.
Qed.

Lemma youtube_best_options_witness :
  exists self w',
    new "youtube" "https://youtube.com/watch?v=abc" (Some "best") (Some "./out")
        false None None None sample_world = (Returns self, w')
    /\ _get_ydl_opts self !! "format" = Some (VStr "bestvideo+bestaudio/best")
    /\ _get_ydl_opts self !! "outtmpl" = Some (VStr "out/%(title)s.%(ext)s")
    /\ _get_ydl_opts self !! "postprocessors" = None.
Proof.
  destruct (new "youtube" "https://youtube.com/watch?v=abc" (Some "best") (Some "./out")
                false None None None sample_world) as [[self|e] w'] eqn:N;
    [|vm_compute in N; discriminate].
  exists self, w'. split; [reflexivity |].
  exact (youtube_best_options sample_world w' self N).
Defined.

(** C2: with quality 720 in video mode, the format selector is
    [bestvideo[height<=720]+bestaudio/best[height<=720]/best]: its first
    alternative is the best video of height at most 720 with the best audio,
    and its last alternative is plain [best], without a height filter. *)
Theorem quality_720_selector (self : t) :
  quality self = "720" ->
  audio_only self = false ->
  _get_quality_format_selector self = "bestvideo[height<=720]+bestaudio/best[height<=720]/best"
  /\ _get_ydl_opts self !! "format" = Some (VStr (_get_quality_format_selector self))
  /\ alternatives (_get_quality_format_selector self)
     = ["bestvideo[height<=720]+bestaudio"; "best[height<=720]"; "best"]
  /\ List.last (alternatives (_get_quality_format_selector self)) "" = "best"
  /\ PyStr.contains "height" (List.last (alternatives (_get_quality_format_selector self)) "")
     = false.
Proof.
  intros Q A.
  assert (S : _get_quality_format_selector self
              = "bestvideo[height<=720]+bestaudio/best[height<=720]/best")
    by (unfold _get_quality_format_selector; rewrite Q, A; reflexivity).
  rewrite opts_format, S. repeat split.
Qed.

Lemma quality_720_selector_witness :
  new "youtube" "https://youtu.be/abc" (Some "720") None false None None None sample_world
  = (Returns sample_720, sample_world)
  /\ _get_quality_format_selector sample_720
     = "bestvideo[height<=720]+bestaudio/best[height<=720]/best".
Proof.
  split; [vm_compute; reflexivity |].
  exact (proj1 (quality_720_selector sample_720 eq_refl eq_refl)).
Defined.

(** C3, as stated, does not hold: with no output directory given, in a
    working directory that has been removed, [Path.cwd()] at line 48 raises
    [FileNotFoundError] before the platform is looked at; no [ValueError]
    is raised for the unsupported platform [TikTok]. *)
Lemma unsupported_platform_without_cwd :
  ~ (forall (platform link : string) (quality output_dir : option string) (audio_only : bool)
            (filename cookies format : option string) (w : OS.world),
        ~ In (_normalize_platform platform) recognized_platforms ->
        exists msg w',
          new platform link quality output_dir audio_only filename cookies format w
          = (Raises (ValueError msg), w')).
Proof.
  intros H.
  destruct (H "TikTok" "https://tiktok.com/@a/video/1" (Some "best") None false None None None
              orphan_world) as (msg & w' & N).
  - vm_compute. intros H0. repeat destruct H0 as [H0|H0]; try discriminate H0. exact H0.
  - vm_compute in N. discriminate.
Qed.

(** C3 (amended): a platform string whose normalized form is none of
    youtube, instagram, twitter, x makes the constructor raise.  When line 48
    has a directory to take (an output directory is given, or the working
    directory exists), it raises [ValueError] before anything else happens,
    and the message quotes the (normalized) platform; otherwise it raises the
    [FileNotFoundError] of [Path.cwd()], an [OSError] with [ENOENT] and no
    file name. *)
Theorem unsupported_platform_rejected (platform link : string)
    (quality output_dir : option string) (audio_only : bool)
    (filename cookies format : option string) (w : OS.world) :
  ~ In (_normalize_platform platform) recognized_platforms ->
  (output_dir_available w output_dir = true ->
   new platform link quality output_dir audio_only filename cookies format w
   = (Raises (ValueError ("Invalid platform '" +:+ _normalize_platform platform
                          +:+ "'. Supported platforms: youtube, instagram, twitter")), w)
   /\ PyStr.contains (_normalize_platform platform)
        ("Invalid platform '" +:+ _normalize_platform platform
         +:+ "'. Supported platforms: youtube, instagram, twitter") = true)
  /\ (output_dir_available w output_dir = false ->
      new platform link quality output_dir audio_only filename cookies format w
      = (Raises (OSError OS.ENOENT None), w)).
Proof.
  intros H. split.
  - intros A. destruct (choose_output_dir_available _ _ A) as [dir E].
    split; [exact (new_bad_platform _ _ _ _ _ _ _ _ _ _ E H) | apply contains_middle].
  - intros A. apply new_no_directory, choose_output_dir_unavailable, A.
Qed.

Lemma unsupported_platform_rejected_witness :
  new "TikTok" "https://tiktok.com/@a/video/1" (Some "best") None false None None None
      sample_world
  = (Raises (ValueError
       "Invalid platform 'tiktok'. Supported platforms: youtube, instagram, twitter"),
     sample_world)
  /\ new "TikTok" "https://tiktok.com/@a/video/1" (Some "best") None false None None None
         orphan_world
     = (Raises (OSError OS.ENOENT None), orphan_world).
Proof.
  assert (P : ~ In (_normalize_platform "TikTok") recognized_platforms).
  { vm_compute. intros H. repeat destruct H as [H|H]; try discriminate H. exact H. }
  split.
  - exact (proj1 (proj1 (unsupported_platform_rejected "TikTok" "https://tiktok.com/@a/video/1"
                           (Some "best") None false None None None sample_world P) eq_refl)).
  - exact (proj2 (unsupported_platform_rejected "TikTok" "https://tiktok.com/@a/video/1"
                    (Some "best") None false None None None orphan_world P) eq_refl).
Defined.

(** C4: in audio-only mode without an explicit format, the options dict has
    a post-processor list of exactly one entry, which asks for
    [FFmpegExtractAudio] with preferred codec mp3 and preferred quality 192. *)
Theorem audio_only_default_postprocessor (self : t) :
  audio_only self = true ->
  format self = None ->
  exists pp,
    _get_ydl_opts self !! "postprocessors" = Some (VPostprocessors [pp])
    /\ pp !! "key" = Some "FFmpegExtractAudio"
    /\ pp !! "preferredcodec" = Some "mp3"
    /\ pp !! "preferredquality" = Some "192"
    /\ size pp = 3.
Proof.
  intros A F. exists (extract_audio "mp3").
  rewrite (opts_postprocessors_audio self A), F. repeat split.
Qed.

Lemma audio_only_default_postprocessor_witness :
  exists pp,
    _get_ydl_opts sample_audio !! "postprocessors" = Some (VPostprocessors [pp])
    /\ pp !! "key" = Some "FFmpegExtractAudio"
    /\ pp !! "preferredcodec" = Some "mp3"
    /\ pp !! "preferredquality" = Some "192"
    /\ size pp = 3.
Proof. exact (audio_only_default_postprocessor sample_audio eq_refl eq_refl). Defined.




(** C6: with platform [x], a URL with an http(s) scheme and a valid quality,
    the platform attribute is [twitter]: the name normalizes to it, and every
    instance the constructor returns carries it.  The constructor never
    rejects the platform, the URL or the quality (the one [ValueError] it can
    still raise is that of a NUL in the output path), and it returns such an
    instance when the cookie file, if any, is there and the output directory
    exists already. *)
Theorem platform_x_is_twitter (link : string) (quality output_dir : option string)
    (audio_only : bool) (filename cookies format : option string) (w : OS.world) :
  PyStr.startswith_any link ["http://"; "https://"] = true ->
  In (PyStr.or_else quality "best") QUALITY_OPTIONS ->
  _normalize_platform "x" = "twitter"
  /\ (forall s w', new "x" link quality output_dir audio_only filename cookies format w
                   = (Returns s, w') -> platform s = "twitter")
  /\ (forall e w', new "x" link quality output_dir audio_only filename cookies format w
                   = (Raises e, w') ->
                   forall m, e = ValueError m -> m = "embedded null byte")
  /\ (forall dir,
         choose_output_dir output_dir w = (Returns dir, w) ->
         cookies_ok w cookies = true ->
         OS.is_dir w dir = true ->
         new "x" link quality output_dir audio_only filename cookies format w
         = (Returns (assign "x" link quality dir audio_only filename cookies format),
            after_validation (assign "x" link quality dir audio_only filename cookies format) w)).
Proof.
  intros U Q.
  assert (P : In (_normalize_platform "x") recognized_platforms) by (vm_compute; tauto).
  split; [reflexivity |]. split; [|split].
  - intros s w' N. apply new_returns_self in N as (dir & _ & ->). reflexivity.
  - intros e w' N m ->.
    destruct (choose_output_dir_cases output_dir w) as [[dir E]|[_ E]].
    + destruct (cookies_ok w cookies) eqn:C.
      * rewrite (new_valid _ _ _ _ _ _ _ _ _ _ E P U Q C) in N.
        destruct (construct_raises _ _ _ _ N) as [(en & s & X)|X]; congruence.
      * rewrite (new_bad_cookies _ _ _ _ _ _ _ _ _ _ E P U Q C) in N. discriminate.
    + rewrite (new_no_directory _ _ _ _ _ _ _ _ _ _ E) in N. discriminate.
  - intros dir E C D. rewrite (new_valid _ _ _ _ _ _ _ _ _ _ E P U Q C).
    apply construct_existing, D.
Qed.

Lemma platform_x_is_twitter_witness :
  exists self,
    new "x" "https://x.com/user/status/1" (Some "480") None false None
        (Some "cookies.txt") None sample_world = (Returns self, sample_world)
    /\ platform self = "twitter".
Proof.
  destruct (platform_x_is_twitter "https://x.com/user/status/1" (Some "480") None
              false None (Some "cookies.txt") None sample_world eq_refl)
    as (_ & S & _ & R); [vm_compute; tauto |].
  pose proof (R sample_cwd eq_refl eq_refl eq_refl) as N.
  eexists. split; [exact N | exact (S _ _ N)].
Defined.

(** C7, as stated, does not hold: with no output directory given, in a
    working directory that has been removed, [Path.cwd()] at line 48 raises
    [FileNotFoundError] before the URL is looked at; no [ValueError] is
    raised for the link without a scheme. *)
Lemma url_without_scheme_without_cwd :
  ~ (forall (platform link : string) (quality output_dir : option string) (audio_only : bool)
            (filename cookies format : option string) (w : OS.world),
        PyStr.startswith link "http://" = false ->
        PyStr.startswith link "https://" = false ->
        exists msg w',
          new platform link quality output_dir audio_only filename cookies format w
          = (Raises (ValueError msg), w')).
Proof.
  intros H.
  destruct (H "youtube" "ftp://youtube.com/watch?v=abc" None None false None None None
              orphan_world eq_refl eq_refl) as (msg & w' & N).
  vm_compute in N. discriminate.
Qed.

(** C7 (amended): a URL that starts with neither [http://] nor [https://]
    makes the constructor raise, whatever the other arguments.  When line 48
    has a directory to take (an output directory is given, or the working
    directory exists), it raises [ValueError] and leaves the world as it is;
    for a recognized platform the message is the one about the URL format.
    Otherwise it raises the [FileNotFoundError] of [Path.cwd()], an [OSError]
    with [ENOENT] and no file name. *)
Theorem url_without_scheme_rejected (platform link : string)
    (quality output_dir : option string) (audio_only : bool)
    (filename cookies format : option string) (w : OS.world) :
  PyStr.startswith link "http://" = false ->
  PyStr.startswith link "https://" = false ->
  (output_dir_available w output_dir = true ->
   exists msg,
     new platform link quality output_dir audio_only filename cookies format w
     = (Raises (ValueError msg), w)
     /\ (In (_normalize_platform platform) recognized_platforms ->
         msg = "Invalid URL format: " +:+ link))
  /\ (output_dir_available w output_dir = false ->
      new platform link quality output_dir audio_only filename cookies format w
      = (Raises (OSError OS.ENOENT None), w)).
Proof.
  intros H1 H2.
  assert (U : PyStr.startswith_any link ["http://"; "https://"] = false)
    by (unfold PyStr.startswith_any; cbn [existsb]; now rewrite H1, H2).
  split.
  - intros A. destruct (choose_output_dir_available _ _ A) as [dir E].
    destruct (in_dec string_dec (_normalize_platform platform) recognized_platforms) as [P|P].
    + eexists. split; [exact (new_bad_url _ _ _ _ _ _ _ _ _ _ E P U) | reflexivity].
    + eexists. split; [exact (new_bad_platform _ _ _ _ _ _ _ _ _ _ E P) | contradiction].
  - intros A. apply new_no_directory, choose_output_dir_unavailable, A.
Qed.

Lemma url_without_scheme_rejected_witness :
  (exists msg,
      new "youtube" "ftp://youtube.com/watch?v=abc" None None false None None None sample_world
      = (Raises (ValueError msg), sample_world)
      /\ (In (_normalize_platform "youtube") recognized_platforms ->
          msg = "Invalid URL format: " +:+ "ftp://youtube.com/watch?v=abc"))
  /\ new "youtube" "ftp://youtube.com/watch?v=abc" None None false None None None orphan_world
     = (Raises (OSError OS.ENOENT None), orphan_world).
Proof.
  split.
  - exact (proj1 (url_without_scheme_rejected "youtube" "ftp://youtube.com/watch?v=abc" None
                    None false None None None sample_world eq_refl eq_refl) eq_refl).
  - exact (proj2 (url_without_scheme_rejected "youtube" "ftp://youtube.com/watch?v=abc" None
                    None false None None None orphan_world eq_refl eq_refl) eq_refl).
Defined.




(** C9, as stated, does not hold: a configuration can pass validation and
    the constructor still not leave the output directory behind; here the
    output path is the cookie file itself, and [mkdir] raises. *)
Lemma validated_without_output_dir :
  ~ (forall (platform link : string) (quality output_dir : option string) (audio_only : bool)
            (filename cookies format : option string) (w w1 : OS.world) (dir : PosixPath.t),
        choose_output_dir output_dir w = (Returns dir, w) ->
        _validate_inputs
          (assign platform link quality dir audio_only filename cookies format) w
        = (Returns tt, w1) ->
        exists self w',
          new platform link quality output_dir audio_only filename cookies format w
          = (Returns self, w')
          /\ OS.is_dir w' (VideoDownloader.output_dir self) = true).
Proof.
  intros H.
  destruct (H "youtube" "https://youtube.com/watch?v=abc" (Some "best") (Some "cookies.txt")
              false None (Some "cookies.txt") None sample_world sample_world
              (PosixPath.Path "cookies.txt"))
    as (self & w' & N & _);
    [reflexivity | vm_compute; reflexivity |].
  vm_compute in N. discriminate.
Qed.

(** C9 (amended): for a configuration that passes validation, the
    constructor itself, without any call to the library, runs
    [mkdir(parents=True, exist_ok=True)] on the output directory.  When it
    returns, the output directory and all its ancestors are directories, and
    the host differs from what validation left only by new directories, each
    of them the output directory or an ancestor of it; it returns, changing
    nothing, when the directory exists already.  When it raises instead, the
    exception is the one [mkdir] raised: an [OSError] naming a path, or the
    [ValueError] of a NUL in the path. *)
Theorem construction_makes_output_dir (platform link : string)
    (quality output_dir : option string) (audio_only : bool)
    (filename cookies format : option string) (w w1 : OS.world) (dir : PosixPath.t) :
  choose_output_dir output_dir w = (Returns dir, w) ->
  let self := assign platform link quality dir audio_only filename cookies format in
  _validate_inputs self w = (Returns tt, w1) ->
  (forall s w',
      new platform link quality output_dir audio_only filename cookies format w
      = (Returns s, w') ->
      s = self
      /\ OS.is_dir w' dir = true
      /\ (forall n, OS.is_dir w' (ancestor dir n) = true)
      /\ only_makes dir w1 w')
  /\ (OS.is_dir w dir = true ->
      new platform link quality output_dir audio_only filename cookies format w
      = (Returns self, w1))
  /\ (forall e w',
         new platform link quality output_dir audio_only filename cookies format w
         = (Raises e, w') ->
         ensure_output_dir self w1 = (Raises e, w')
         /\ ((exists en s, e = OSError en (Some s)) \/ e = ValueError "embedded null byte")).
Proof.
  intros E self V. destruct (validate_frame _ _ _ _ V) as (T & C & _).
  pose proof (new_unfold platform link quality output_dir audio_only filename cookies format w
                dir E) as N.
  fold self in N. rewrite V in N.
  split; [|split].
  - intros s w' R. rewrite N in R.
    destruct (ensure_output_dir self w1) as [[[]|e] w2] eqn:K; [|discriminate].
    injection R as <- <-. destruct (ensure_returns _ _ _ K) as [D G].
    split; [reflexivity |]. split; [exact D |]. split; [|exact G].
    intros n. apply is_dir_ancestor, D.
  - intros D. rewrite <- (same_tree_is_dir _ _ _ T C) in D.
    rewrite N, (ensure_existing self w1 D). reflexivity.
  - intros e w' R. rewrite N in R.
    destruct (ensure_output_dir self w1) as [[[]|e1] w2] eqn:K; [discriminate |].
    injection R as <- <-. split; [reflexivity | exact (ensure_raises _ _ _ _ K)].
Qed.

Lemma construction_makes_output_dir_witness :
  exists self w',
    new "youtube" "https://youtube.com/watch?v=abc" (Some "best") (Some "media/2024") false
        None None None sample_world = (Returns self, w')
    /\ OS.is_dir w' (PosixPath.Path "media/2024") = true
    /\ OS.is_dir w' (PosixPath.Path "media") = true
    /\ OS.is_dir sample_world (PosixPath.Path "media") = false
    /\ only_makes (PosixPath.Path "media/2024") sample_world w'.
Proof.
  destruct (new "youtube" "https://youtube.com/watch?v=abc" (Some "best") (Some "media/2024")
                false None None None sample_world) as [[self|e] w'] eqn:N;
    [|vm_compute in N; discriminate].
  pose proof (construction_makes_output_dir "youtube" "https://youtube.com/watch?v=abc"
                (Some "best") (Some "media/2024") false None None None
                sample_world sample_world (PosixPath.Path "media/2024") eq_refl) as H.
  cbv zeta in H. destruct H as (H & _ & _); [vm_compute; reflexivity |].
  destruct (H _ _ N) as (_ & D & A & G).
  exists self, w'. split; [reflexivity |]. split; [exact D |].
  split; [exact (A 1) |]. split; [reflexivity | exact G].
Defined.

(** C10: in audio-only mode the format selector is [bestaudio/best]
    whatever the quality: any two audio-only instances, and so any two that
    differ in quality alone, get the same selector and the same [format]
    option. *)
Theorem audio_only_ignores_quality (self1 self2 : t) :
  audio_only self1 = true ->
  audio_only self2 = true ->
  _get_quality_format_selector self1 = "bestaudio/best"
  /\ _get_quality_format_selector self2 = _get_quality_format_selector self1
  /\ _get_ydl_opts self2 !! "format" = _get_ydl_opts self1 !! "format".
Proof.
  intros A1 A2. rewrite !opts_format. unfold _get_quality_format_selector.
  rewrite A1, A2. repeat split.
Qed.

Lemma audio_only_ignores_quality_witness :
  quality sample_audio_360 <> quality sample_audio_1080
  /\ _get_quality_format_selector sample_audio_360 = "bestaudio/best"
  /\ _get_quality_format_selector sample_audio_1080 = _get_quality_format_selector sample_audio_360.
Proof.
  split; [discriminate |].
  destruct (audio_only_ignores_quality sample_audio_360 sample_audio_1080 eq_refl eq_refl)
    as (S & E & _).
  split; [exact S | exact E].
Defined.

(* ===================================================================== *)
(** ** Beyond the claims: normalization and validation *)
(* ===================================================================== *)

Section normalization.

Lemma lower_char_idem (c : ascii) : PyStr.lower_char (PyStr.lower_char c) = PyStr.lower_char c.
Proof. destruct c as [[] [] [] [] [] [] [] []]; reflexivity. Qed.

Lemma lower_idem (s : string) : PyStr.lower (PyStr.lower s) = PyStr.lower s.
Proof.
  induction s as [|c s IH]; simpl; [reflexivity |].
  now rewrite lower_char_idem, IH.
Qed.

Lemma normalize_never_x (platform : string) : _normalize_platform platform <> "x".
Proof.
  unfold _normalize_platform.
  destruct (String.eqb (PyStr.lower platform) "x") eqn:E; [discriminate |].
  now apply String.eqb_neq.
Qed.

End normalization.

(** X1: the normalized platform is never [x]; normalizing is idempotent and
    blind to case, so the constructor treats a platform name and its
    lower-cased form alike. *)
Theorem normalize_platform_canonical (platform : string) :
  _normalize_platform platform <> "x"
  /\ _normalize_platform (_normalize_platform platform) = _normalize_platform platform
  /\ _normalize_platform (PyStr.lower platform) = _normalize_platform platform
  /\ (forall link quality output_dir audio_only filename cookies format w,
         new (PyStr.lower platform) link quality output_dir audio_only filename cookies format w
         = new platform link quality output_dir audio_only filename cookies format w).
Proof.
  assert (L : _normalize_platform (PyStr.lower platform) = _normalize_platform platform)
    by (unfold _normalize_platform; now rewrite lower_idem).
  repeat split.
  - apply normalize_never_x.
  - unfold _normalize_platform at 2 3.
    destruct (String.eqb (PyStr.lower platform) "x") eqn:E; [reflexivity |].
    rewrite L. unfold _normalize_platform. now rewrite E.
  - exact L.
  - intros. unfold new, __init__, assign. now rewrite L.
Qed.

(** X2: an unsupported quality makes the constructor raise [ValueError]
    with the list of supported qualities, whatever the cookie argument, once
    line 48 has taken a directory (an output directory is given, or the
    working directory exists) and platform and URL have passed; the domain
    warning, if due, is already on the console by then, and nothing on disk
    has changed. *)
Theorem unsupported_quality_rejected (platform link : string)
    (quality output_dir : option string) (audio_only : bool)
    (filename cookies format : option string) (w : OS.world) (dir : PosixPath.t) :
  In (_normalize_platform platform) recognized_platforms ->
  PyStr.startswith_any link ["http://"; "https://"] = true ->
  ~ In (PyStr.or_else quality "best") QUALITY_OPTIONS ->
  choose_output_dir output_dir w = (Returns dir, w) ->
  exists w',
    new platform link quality output_dir audio_only filename cookies format w
    = (Raises (ValueError ("Invalid quality '" +:+ PyStr.or_else quality "best"
                           +:+ "'. Supported qualities: 360, 480, 720, 1080, best")), w')
    /\ OS.tree w' = OS.tree w
    /\ OS.stdout w'
       = OS.stdout w
         ++ (if domain_matches
                  (assign platform link quality dir audio_only filename cookies format)
             then []
             else [domain_warning
                     (assign platform link quality dir audio_only filename cookies format)]).
Proof.
  intros P U Q E. eexists. split; [|split].
  - exact (new_bad_quality _ _ _ _ _ _ _ _ _ _ E P U Q).
  - apply after_validation_frame.
  - unfold after_validation. destruct (domain_matches _); cbn [OS.stdout];
      [now rewrite app_nil_r | reflexivity].
Qed.

Lemma unsupported_quality_rejected_witness :
  exists w',
    new "instagram" "https://example.org/p/1" (Some "4k") None false None (Some "nowhere.txt")
        None sample_world
    = (Raises (ValueError "Invalid quality '4k'. Supported qualities: 360, 480, 720, 1080, best"),
       w')
    /\ OS.stdout w'
       = ["Warning: URL 'https://example.org/p/1' may not match platform 'instagram'"].
Proof.
  destruct (unsupported_quality_rejected "instagram" "https://example.org/p/1" (Some "4k") None
              false None (Some "nowhere.txt") None sample_world sample_cwd)
    as (w' & N & _ & O).
  - vm_compute. tauto.
  - reflexivity.
  - vm_compute. intros H. repeat destruct H as [H|H]; try discriminate H. exact H.
  - reflexivity.
  - exists w'. split; [exact N | exact O].
Defined.

(** X3: a cookie path that is given but names no regular file makes the
    constructor raise [FileNotFoundError] naming the path, once line 48 has
    taken a directory (an output directory is given, or the working directory
    exists) and platform, URL and quality have passed; the output directory
    is not created. *)
Theorem missing_cookie_file_rejected (platform link : string)
    (quality output_dir : option string) (audio_only : bool)
    (filename : option string) (cookie_path : string) (format : option string) (w : OS.world) :
  In (_normalize_platform platform) recognized_platforms ->
  PyStr.startswith_any link ["http://"; "https://"] = true ->
  In (PyStr.or_else quality "best") QUALITY_OPTIONS ->
  cookie_path <> "" ->
  OS.isfile w cookie_path = false ->
  output_dir_available w output_dir = true ->
  exists w',
    new platform link quality output_dir audio_only filename (Some cookie_path) format w
    = (Raises (FileNotFoundError ("Cookies file not found: " +:+ cookie_path)), w')
    /\ OS.tree w' = OS.tree w.
Proof.
  intros P U Q N F A. destruct (choose_output_dir_available _ _ A) as [dir E].
  assert (C : cookies_ok w (Some cookie_path) = false).
  { apply String.eqb_neq in N.
    change (negb (negb (String.eqb cookie_path "")) || OS.isfile w cookie_path = false).
    now rewrite N, F. }
  eexists. split.
  - exact (new_bad_cookies platform link quality output_dir audio_only filename
             (Some cookie_path) format w dir E P U Q C).
  - apply after_validation_frame.
Qed.

Lemma missing_cookie_file_rejected_witness :
  exists w',
    new "twitter" "https://twitter.com/u/status/1" None (Some "clips") false None
        (Some "missing.txt") None sample_world
    = (Raises (FileNotFoundError "Cookies file not found: missing.txt"), w')
    /\ OS.tree w' = OS.tree sample_world.
Proof.
  apply (missing_cookie_file_rejected "twitter" "https://twitter.com/u/status/1" None
           (Some "clips") false None "missing.txt" None sample_world).
  - vm_compute. tauto.
  - reflexivity.
  - vm_compute. tauto.
  - discriminate.
  - reflexivity.
  - reflexivity.
Defined.

(** What a returned instance satisfies. *)
Lemma new_returns_valid (platform link : string)
    (quality output_dir : option string) (audio_only : bool)
    (filename cookies format : option string) (w w' : OS.world) (self : t) :
  new platform link quality output_dir audio_only filename cookies format w = (Returns self, w') ->
  In (VideoDownloader.platform self) ["youtube"; "instagram"; "twitter"]
  /\ PyStr.startswith_any (VideoDownloader.link self) ["http://"; "https://"] = true
  /\ In (VideoDownloader.quality self) QUALITY_OPTIONS
  /\ cookies_ok w (VideoDownloader.cookies self) = true
  /\ _custom_progress_hook self = None
  /\ OS.is_dir w' (VideoDownloader.output_dir self) = true.
Proof.
  intros N. destruct (new_returns_steps _ _ _ _ _ _ _ _ _ _ _ N) as (dir & w1 & E & S & V & K).
  destruct (in_dec string_dec (VideoDownloader.platform self) recognized_platforms) as [P|P];
    [|rewrite (validate_bad_platform self w P) in V; discriminate].
  destruct (PyStr.startswith_any (VideoDownloader.link self) ["http://"; "https://"]) eqn:U;
    [|rewrite (validate_bad_url self w P U) in V; discriminate].
  destruct (in_dec string_dec (VideoDownloader.quality self) QUALITY_OPTIONS) as [Q|Q];
    [|rewrite (validate_bad_quality self w P U Q) in V; discriminate].
  destruct (cookies_ok w (VideoDownloader.cookies self)) eqn:C;
    [|rewrite (validate_bad_cookies self w P U Q C) in V; discriminate].
  destruct (ensure_returns _ _ _ K) as [D _].
  split; [|split; [reflexivity |]; split; [exact Q |]; split; [reflexivity |];
           split; [now subst self | exact D]].
  assert (X : VideoDownloader.platform self <> "x")
    by (subst self; apply normalize_never_x).
  simpl in P. simpl. intuition congruence.
Qed.

(** X4: what every instance the constructor returns satisfies: its platform
    is youtube, instagram or twitter (never the alias), its link has an
    http(s) scheme, its quality is one of the five options, its cookie path is
    absent or named a regular file, no custom progress hook is installed, and
    its output directory exists. *)
Theorem constructed_instance_invariant (platform link : string)
    (quality output_dir : option string) (audio_only : bool)
    (filename cookies format : option string) (w w' : OS.world) (self : t) :
  new platform link quality output_dir audio_only filename cookies format w = (Returns self, w') ->
  In (VideoDownloader.platform self) ["youtube"; "instagram"; "twitter"]
  /\ PyStr.startswith_any (VideoDownloader.link self) ["http://"; "https://"] = true
  /\ In (VideoDownloader.quality self) QUALITY_OPTIONS
  /\ cookies_ok w (VideoDownloader.cookies self) = true
  /\ _custom_progress_hook self = None
  /\ OS.is_dir w' (VideoDownloader.output_dir self) = true.
Proof. apply new_returns_valid. Qed.

Lemma constructed_instance_invariant_witness :
  exists self w',
    new "X" "https://x.com/u/status/1" None (Some "clips") false None (Some "cookies.txt") None
        sample_world = (Returns self, w')
    /\ VideoDownloader.platform self = "twitter"
    /\ VideoDownloader.quality self = "best"
    /\ OS.is_dir w' (VideoDownloader.output_dir self) = true.
Proof.
  destruct (new "X" "https://x.com/u/status/1" None (Some "clips") false None
                (Some "cookies.txt") None sample_world) as [[self|e] w'] eqn:N;
    [|vm_compute in N; discriminate].
  destruct (constructed_instance_invariant _ _ _ _ _ _ _ _ _ _ _ N) as (_ & _ & _ & _ & _ & D).
  exists self, w'. split; [reflexivity |].
  apply new_returns_self in N as (dir & _ & ->). repeat split. exact D.
Defined.

(* ===================================================================== *)
(** ** Beyond the claims: the option builder *)
(* ===================================================================== *)

(** X5: for a quality of the supported set, in video mode, the selector is
    [bestvideo+bestaudio/best] for [best] and otherwise bounds the height by
    the quality as written; the fallback for a quality that is no number is
    never taken. *)
Theorem selector_of_supported_quality (self : t) :
  In (quality self) QUALITY_OPTIONS ->
  audio_only self = false ->
  _get_quality_format_selector self
  = if String.eqb (quality self) "best" then "bestvideo+bestaudio/best"
    else "bestvideo[height<=" +:+ quality self +:+ "]+bestaudio/best[height<="
         +:+ quality self +:+ "]/best".
Proof.
  intros Q A. unfold _get_quality_format_selector. rewrite A.
  simpl in Q. destruct Q as [<-|[<-|[<-|[<-|[<-|[]]]]]]; reflexivity.
Qed.

Lemma selector_of_supported_quality_witness :
  _get_quality_format_selector sample_clip
  = "bestvideo[height<=1080]+bestaudio/best[height<=1080]/best".
Proof.
  refine (selector_of_supported_quality sample_clip _ eq_refl).
  vm_compute. tauto.
Defined.

Lemma output_template_unfold (self : t) :
  _get_output_template self
  = PosixPath.str
      (output_dir self //
         (if PyStr.truthy (filename self)
          then fst (PyStr.splitext (default "" (filename self))) +:+ ".%(ext)s"
          else "%(title)s.%(ext)s")).
Proof.
  unfold _get_output_template.
  destruct (PyStr.truthy (filename self)), (audio_only self); reflexivity.
Qed.

(** X6: the [outtmpl] option is always the output template; the override
    in audio-only mode assigns the value that is there already, and the
    template does not depend on the audio-only flag. *)
Theorem outtmpl_is_output_template (self : t) :
  _get_ydl_opts self !! "outtmpl" = Some (VStr (_get_output_template self))
  /\ _get_output_template self
     = PosixPath.str
         (output_dir self //
            (if PyStr.truthy (filename self)
             then fst (PyStr.splitext (default "" (filename self))) +:+ ".%(ext)s"
             else "%(title)s.%(ext)s")).
Proof.
  split.
  - unfold _get_ydl_opts, _get_output_template.
    destruct (PyStr.truthy (cookies self)), (audio_only self),
      (PyStr.truthy (filename self)), (PyStr.truthy (format self));
      cbn [negb]; by simplify_map_eq.
  - apply output_template_unfold.
Qed.

Section absolute_filename.

Lemma rfind_from_found (c : ascii) (s : string) :
  forall i j, exists k, PyStr.rfind_from c s i (Some j) = Some k.
Proof.
  induction s as [|d s IH]; intros i j; simpl; [eauto |].
  destruct (Ascii.eqb d c); apply IH.
Qed.

(** The root part [splitext] returns for a path that starts with a slash
    starts with that slash. *)
Lemma splitext_keeps_slash (r : string) :
  exists b, fst (PyStr.splitext (String "/" r)) = String "/" b.
Proof.
  assert (R : exists k, PyStr.rfind "/" (String "/" r) = Some k)
    by (unfold PyStr.rfind; apply (rfind_from_found "/" r 1 0)).
  destruct R as [k R]. unfold PyStr.splitext. rewrite R.
  destruct (PyStr.rfind "." (String "/" r)) as [dotIndex|]; [|simpl; eauto].
  destruct ((S k <=? dotIndex)%nat) eqn:B; [|simpl; eauto].
  destruct (PyStr.splitext_scan (String "/" r) (S k) (dotIndex - S k)); [|simpl; eauto].
  apply Nat.leb_le in B. destruct dotIndex as [|n]; [lia |]. simpl. eauto.
Qed.

End absolute_filename.

(** X7: a custom filename that starts with a slash takes the place of the
    output directory: the output template is built from the filename alone. *)
Theorem absolute_filename_ignores_output_dir (self : t) (f : string) :
  filename self = Some (String "/" f) ->
  _get_output_template self
  = PosixPath.str (PosixPath.Path (fst (PyStr.splitext (String "/" f)) +:+ ".%(ext)s")).
Proof.
  intros F. rewrite output_template_unfold, F.
  change (PyStr.truthy (Some (String "/" f))) with true. cbn iota.
  change (default "" (Some (String "/" f))) with (String "/" f).
  destruct (splitext_keeps_slash f) as [b ->].
  unfold PosixPath.truediv, PosixPath.join.
  change (String "/" b +:+ ".%(ext)s") with (String "/" (b +:+ ".%(ext)s")).
  now rewrite parse_root_slash.
Qed.

Lemma absolute_filename_ignores_output_dir_witness :
  _get_output_template sample_absolute_name = "/tmp/clip.%(ext)s".
Proof.
  exact (absolute_filename_ignores_output_dir sample_absolute_name "tmp/clip.mp4" eq_refl).
Defined.

(** X8: the keys of the options dict are the five basic ones, plus
    [cookiefile] exactly when a cookie path is given, plus [postprocessors]
    in audio-only mode or else [merge_output_format] when a format is given;
    nothing else is ever set. *)
Theorem opts_keys (self : t) : dom (_get_ydl_opts self) = expected_keys self.
Proof.
  unfold _get_ydl_opts, expected_keys.
  destruct (PyStr.truthy (cookies self)), (audio_only self),
    (PyStr.truthy (filename self)), (PyStr.truthy (format self));
    cbn [negb]; rewrite ?dom_insert_L, dom_empty_L; set_solver.
Qed.

(** X9: where an explicit format goes: in audio-only mode it is the
    preferred codec of the one post-processor and no merge format is set; in
    video mode it is the merge format and there is no post-processor.  The
    cookie path, when given, is passed on as [cookiefile]. *)
Theorem format_routing (self : t) (f : string) :
  format self = Some f ->
  f <> "" ->
  (audio_only self = true ->
   _get_ydl_opts self !! "postprocessors" = Some (VPostprocessors [extract_audio f])
   /\ extract_audio f !! "preferredcodec" = Some f
   /\ _get_ydl_opts self !! "merge_output_format" = None)
  /\ (audio_only self = false ->
      _get_ydl_opts self !! "merge_output_format" = Some (VStr f)
      /\ _get_ydl_opts self !! "postprocessors" = None)
  /\ (forall c, cookies self = Some c -> c <> "" ->
                _get_ydl_opts self !! "cookiefile" = Some (VStr c)).
Proof.
  intros F N. apply String.eqb_neq in N.
  assert (T : PyStr.truthy (format self) = true) by (rewrite F; simpl; now rewrite N).
  assert (O : PyStr.or_else (format self) "mp3" = f) by (rewrite F; simpl; now rewrite N).
  repeat split.
  - rewrite (opts_postprocessors_audio self H), O. reflexivity.
  - unfold _get_ydl_opts. rewrite H.
    destruct (PyStr.truthy (cookies self)), (PyStr.truthy (filename self));
      cbn [negb]; by simplify_map_eq.
  - unfold _get_ydl_opts. rewrite H, T, F.
    destruct (PyStr.truthy (cookies self)); by simplify_map_eq.
  - apply opts_postprocessors_video, H.
  - intros c C Nc. apply String.eqb_neq in Nc.
    assert (Tc : PyStr.truthy (cookies self) = true) by (rewrite C; simpl; now rewrite Nc).
    unfold _get_ydl_opts. rewrite Tc, C.
    destruct (audio_only self), (PyStr.truthy (filename self)), (PyStr.truthy (format self));
      cbn [negb]; by simplify_map_eq.
Qed.

Lemma format_routing_witness :
  _get_ydl_opts sample_m4a !! "postprocessors" = Some (VPostprocessors [extract_audio "m4a"])
  /\ _get_ydl_opts sample_m4a !! "merge_output_format" = None
  /\ _get_ydl_opts sample_m4a !! "cookiefile" = Some (VStr "cookies.txt").
Proof.
  destruct (format_routing sample_m4a "m4a" eq_refl) as (A & _ & C); [discriminate |].
  destruct (A eq_refl) as (P & _ & M).
  split; [exact P |]. split; [exact M |]. apply (C "cookies.txt" eq_refl). discriminate.
Defined.

(* ===================================================================== *)
(** ** Beyond the claims: the final path *)
(* ===================================================================== *)

Lemma requested_ext_nonempty (self : t) (ext : string) :
  requested_ext self = Some ext -> ext <> "".
Proof.
  unfold requested_ext, PyStr.or_else, PyStr.truthy.
  destruct (audio_only self), (format self) as [f|]; try discriminate.
  - destruct (String.eqb f "") eqn:E; intros [= <-]; [discriminate | now apply String.eqb_neq].
  - intros [= <-]. discriminate.
  - destruct (String.eqb f "") eqn:E; [discriminate |].
    intros [= <-]. now apply String.eqb_neq.
Qed.

(** With an extension asked for, the path computed ends in it. *)
Lemma final_path_requested_ext (self : t) (ydl : YoutubeDL)
    (info : option (gmap string info_value)) (w w' : OS.world) (p : PosixPath.t) (ext : string) :
  requested_ext self = Some ext ->
  slash_free ext = true ->
  final_path self ydl info w = (Returns p, w') ->
  exists x, ends_in (x +:+ "." +:+ ext) p.
Proof.
  intros R F P. pose proof (requested_ext_nonempty _ _ R) as E.
  assert (G : forall s, exists x, ends_in (x +:+ "." +:+ ext) (PosixPath.Path (s +:+ "." +:+ ext)))
    by (intros s; now apply Path_with_ext).
  unfold final_path, bind, lift, ret in P. unfold requested_ext in R.
  destruct (PyStr.truthy (filename self)).
  - assert (P' : Path_absolute
                   (output_dir self //
                      ((fst (PyStr.splitext (default "" (filename self))) +:+ ".") +:+ ext)) w
                 = (Returns p, w')).
    { destruct (audio_only self).
      - injection R as <-. exact P.
      - destruct (PyStr.truthy (format self)); [|discriminate]. rewrite R in P. exact P. }
    rewrite append_assoc in P'.
    destruct (G (fst (PyStr.splitext (default "" (filename self))))) as [x H].
    exists x. apply (Path_absolute_returns _ _ _ _ P'), join_ends_in, H.
  - destruct (prepare_filename ydl info) as [fn|e0]; [|discriminate].
    destruct (G (fst (PyStr.splitext fn))) as [x H]. exists x.
    destruct (audio_only self).
    + injection R as <-. exact (proj2 (Path_absolute_returns _ _ _ _ P) _ H).
    + destruct (PyStr.truthy (format self)); [|discriminate]. rewrite R in P.
      exact (proj2 (Path_absolute_returns _ _ _ _ P) _ H).
Qed.

(** X10: whenever an extension is asked for (audio-only mode: the codec, or
    mp3; video mode: an explicit format) and it holds no slash, every path
    [download] returns ends in a dot and that extension, with or without a
    custom filename and whatever the library reports. *)
Theorem returned_path_has_requested_extension (host_str : exn -> string)
    (yt_dlp : option (gmap string ydl_value -> result YoutubeDL)) (self : t)
    (suppress_output : bool) (w w' : OS.world) (path ext : string) :
  requested_ext self = Some ext ->
  slash_free ext = true ->
  download host_str yt_dlp self suppress_output w = (Returns path, w') ->
  PyStr.endswith path ("." +:+ ext) = true.
Proof.
  intros R F N.
  apply download_returns in N as (mk & ydl & info & p & w0 & _ & _ & _ & _ & _ & _ & P & -> & _).
  destruct (final_path_requested_ext _ _ _ _ _ _ _ R F P) as [x H].
  exact (str_endswith_ext x ext p H).
Qed.

Lemma returned_path_has_requested_extension_witness :
  download sample_host_str (Some (fun _ => Returns sample_ydl)) sample_audio true sample_world
  = (Returns "/home/u/video.mp3", sample_world)
  /\ PyStr.endswith "/home/u/video.mp3" ".mp3" = true.
Proof.
  split; [reflexivity |].
  exact (returned_path_has_requested_extension sample_host_str
           (Some (fun _ => Returns sample_ydl)) sample_audio
           true sample_world sample_world "/home/u/video.mp3" "mp3" eq_refl eq_refl eq_refl).
Defined.

(* ===================================================================== *)
(** ** Beyond the claims: errors of a download *)
(* ===================================================================== *)



(** X12: what interactive [download] can raise.  It is [SystemExit] with
    status 1, raised by [download] itself; or the [FileNotFoundError] of
    [output_dir.absolute()] at line 214, which stands outside the [try], for
    a relative output directory in a working directory that has been removed;
    or something the library raised that is no [Exception], such as
    [KeyboardInterrupt] or a [SystemExit] of its own.  Every [Exception]
    raised inside the [try] ends in status 1. *)
Theorem interactive_download_only_exits (host_str : exn -> string)
    (yt_dlp : option (gmap string ydl_value -> result YoutubeDL)) (self : t)
    (w w' : OS.world) (e : exn) :
  download host_str yt_dlp self false w = (Raises e, w') ->
  e = SystemExit 1
  \/ (e = OSError OS.ENOENT None
      /\ PosixPath.is_absolute (output_dir self) = false /\ OS.getcwd w = inl OS.ENOENT)
  \/ (is_Exception e = false
      /\ exists new_YoutubeDL, yt_dlp = Some new_YoutubeDL
                               /\ library_raised new_YoutubeDL self e).
Proof. apply download_interactive_raises. Qed.

Lemma interactive_download_only_exits_witness :
  download sample_host_str (Some (fun _ => Returns sample_ydl)) sample_clip false orphan_world
  = (Raises (OSError OS.ENOENT None),
     with_line (with_line (with_line orphan_world "Platform: youtube") "Quality: 1080")
       "Format: webm")
  /\ (OSError OS.ENOENT None = SystemExit 1
      \/ (OSError OS.ENOENT None = OSError OS.ENOENT None
          /\ PosixPath.is_absolute (output_dir sample_clip) = false
          /\ OS.getcwd orphan_world = inl OS.ENOENT)
      \/ (is_Exception (OSError OS.ENOENT None) = false
          /\ exists new_YoutubeDL,
               Some (fun _ : gmap string ydl_value => Returns sample_ydl) = Some new_YoutubeDL
               /\ library_raised new_YoutubeDL sample_clip (OSError OS.ENOENT None))).
Proof.
  split; [reflexivity |].
  exact (interactive_download_only_exits sample_host_str
           (Some (fun _ => Returns sample_ydl)) sample_clip orphan_world
           (with_line (with_line (with_line orphan_world "Platform: youtube") "Quality: 1080")
              "Format: webm")
           (OSError OS.ENOENT None) eq_refl).
Defined.



(* ===================================================================== *)
(** ** Beyond the claims: the command line *)
(* ===================================================================== *)

Section command_line.

Lemma choice_recognized (p : string) :
  In p platform_choices -> In (_normalize_platform p) recognized_platforms.
Proof.
  intros H. simpl in H.
  destruct H as [<-|[<-|[<-|[<-|[]]]]]; vm_compute; tauto.
Qed.

Lemma choice_quality (q : string) :
  In q quality_choices -> In (PyStr.or_else (Some q) "best") QUALITY_OPTIONS.
Proof.
  intros H. simpl in H.
  destruct H as [<-|[<-|[<-|[<-|[<-|[]]]]]]; vm_compute; tauto.
Qed.

Lemma has_nul_cons (c : ascii) (r : string) :
  PyStr.has_nul (String c r) = Ascii.eqb c (ascii_of_nat 0) || PyStr.has_nul r.
Proof.
  unfold PyStr.has_nul. cbn [PyStr.contains]. f_equal.
  change (String.prefix (String (ascii_of_nat 0) "") (String c r))
    with (if ascii_dec (ascii_of_nat 0) c then String.prefix "" r else false).
  destruct (ascii_dec (ascii_of_nat 0) c) as [<-|N].
  - now destruct r.
  - symmetry. apply Ascii.eqb_neq. congruence.
Qed.

(** A string without NUL splits into segments without NUL. *)
Lemma has_nul_split (s : string) :
  PyStr.has_nul s = false -> existsb PyStr.has_nul (PyStr.split_on "/" s) = false.
Proof.
  induction s as [|c r IH]; [reflexivity |].
  rewrite has_nul_cons. intros H. apply orb_false_elim in H as [Hc Hr].
  specialize (IH Hr). cbn [PyStr.split_on].
  destruct (Ascii.eqb c "/"); [exact IH |].
  destruct (PyStr.split_on "/" r) as [|h t]; cbn [existsb] in *.
  - now rewrite has_nul_cons, Hc.
  - apply orb_false_elim in IH as [Hh Ht]. now rewrite has_nul_cons, Hc, Hh, Ht.
Qed.

Lemma existsb_filter {A} (f g : A -> bool) (l : list A) :
  existsb f l = false -> existsb f (List.filter g l) = false.
Proof.
  induction l as [|x l IH]; [reflexivity |]. cbn [existsb List.filter].
  intros H. apply orb_false_elim in H as [Hx Hl].
  destruct (g x); cbn [existsb]; [rewrite Hx |]; auto.
Qed.

Lemma has_nul_Path (s : string) :
  PyStr.has_nul s = false -> PyStr.has_nul (PosixPath.str (PosixPath.Path s)) = false.
Proof.
  intros H. rewrite has_nul_str. unfold PosixPath.Path, PosixPath.components.
  cbn [PosixPath.p_parts]. apply existsb_filter, has_nul_split, H.
Qed.

(** [mkdir] on any existing node says [EEXIST]. *)
Lemma mkdir_exists (refused : list string -> option Z)
    (t : gmap (list string) OS.node) (start parts : list string) (n : OS.node) :
  OS.stat t start parts = inr n -> OS.mkdir refused t start parts = inl OS.EEXIST.
Proof.
  destruct parts as [|c init _] using rev_ind.
  { reflexivity. }
  rewrite mkdir_snoc, stat_snoc.
  destruct (OS.resolve t start init) as [e|d]; [discriminate |].
  unfold OS.step. destruct (String.eqb c ".."); [reflexivity |].
  destruct (OS.lookup_node t (d ++ [c])); [reflexivity | discriminate].
Qed.

(** [mkdir(parents=True, exist_ok=True)] on a regular file. *)
Lemma Path_mkdir_on_file (p : PosixPath.t) (w : OS.world) :
  PyStr.has_nul (PosixPath.str p) = false ->
  OS.stat (OS.tree w) (OS.start_of w (PosixPath.is_absolute p)) (PosixPath.p_parts p)
  = inr OS.File ->
  Path_mkdir p true true w = (Raises (OSError OS.EEXIST (Some (PosixPath.str p))), w).
Proof.
  intros Z S. unfold Path_mkdir.
  assert (K : os_mkdir p w = inl (OSError OS.EEXIST (Some (PosixPath.str p))))
    by (unfold os_mkdir; now rewrite Z, (mkdir_exists _ _ _ _ _ S)).
  assert (D : OS.is_dir w p = false) by (unfold OS.is_dir; now rewrite Z, S).
  rewrite <- (path_eta p) in K, D. rewrite <- (path_eta p) at 3.
  destruct (rev (PosixPath.p_parts p)) as [|c rparent];
    cbn [Path_mkdir_parents]; rewrite K; cbn [negb orb]; rewrite D; reflexivity.
Qed.

End command_line.

(** X14: how [main] can end.  It returns only after the constructor and
    the download have returned.  Otherwise it ends in [SystemExit], or in an
    [OSError] other than [ENOENT] that [mkdir] raised on the output
    directory and that no handler of [main] catches; a [ValueError] or a
    [FileNotFoundError] never leaves it. *)
Theorem main_outcomes (host_str : exn -> string)
    (yt_dlp : option (gmap string ydl_value -> result YoutubeDL)) (args : Namespace)
    (w w' : OS.world) (r : result unit) :
  main host_str yt_dlp args w = (r, w') ->
  match r with
  | Returns _ =>
      exists self w1 path,
        new (args_platform args) (args_link args) (Some (args_quality args)) (args_output args)
            (args_audio_only args) (args_filename args) (args_cookies args) (args_format args) w
        = (Returns self, w1)
        /\ download host_str yt_dlp self false w1 = (Returns path, w')
  | Raises e =>
      (exists c, e = SystemExit c)
      \/ (exists en p, e = OSError en p /\ en <> OS.ENOENT)
  end.
Proof.
  unfold main, try_except, bind, ret, sys_exit, raise, print.
  destruct (new _ _ _ _ _ _ _ _ w) as [[self|e0] w1] eqn:N.
  - destruct (download host_str yt_dlp self false w1) as [[path|e1] w2] eqn:D.
    + intros [= <- <-]. eauto.
    + destruct (download_interactive_raises _ _ _ _ _ _ D) as [->|[(-> & _)|(X & _)]].
      * intros [= <- <-]. eauto.
      * intros [= <- <-]. eauto.
      * destruct e1; try discriminate X; intros [= <- <-]; eauto.
  - destruct (new_raises_kinds _ _ _ _ _ _ _ _ _ _ _ N) as [[m ->]|[[m ->]|(en & p & ->)]].
    + intros [= <- <-]. eauto.
    + intros [= <- <-]. eauto.
    + destruct en; intros [= <- <-]; eauto; right; eexists _, _; split; eauto; discriminate.
Qed.

Lemma main_outcomes_witness :
  main sample_host_str (Some (fun _ => Returns sample_ydl)) sample_args_file_output
    sample_world
  = (Raises (OSError OS.EEXIST (Some "cookies.txt")), sample_world)
  /\ ((exists c, OSError OS.EEXIST (Some "cookies.txt") = SystemExit c)
      \/ (exists en p, OSError OS.EEXIST (Some "cookies.txt") = OSError en p
                       /\ en <> OS.ENOENT)).
Proof.
  assert (M : main sample_host_str (Some (fun _ => Returns sample_ydl))
                sample_args_file_output sample_world
              = (Raises (OSError OS.EEXIST (Some "cookies.txt")), sample_world))
    by (vm_compute; reflexivity).
  split; [exact M |].
  exact (main_outcomes sample_host_str (Some (fun _ => Returns sample_ydl))
           sample_args_file_output sample_world sample_world
           (Raises (OSError OS.EEXIST (Some "cookies.txt"))) M).
Defined.

(** X15: validation failures at the command line.  With a platform and a
    quality that [argparse] accepts, and [--output] given or a working
    directory that exists, a link without an http(s) scheme makes [main]
    print [Error: Invalid URL format: <link>] and exit with status 1 before
    the library or the disk is touched; a cookie path that names no regular
    file makes it print [Error: Cookies file not found: <path>] after the
    domain warning, if any, and exit with status 1.  Without [--output] in a
    working directory that has been removed, [main] prints the interpreter's
    text for the error of [Path.cwd()] instead and exits with status 1. *)
Theorem main_validation_failures (host_str : exn -> string)
    (yt_dlp : option (gmap string ydl_value -> result YoutubeDL)) (args : Namespace)
    (w : OS.world) :
  In (args_platform args) platform_choices ->
  In (args_quality args) quality_choices ->
  (output_dir_available w (args_output args) = true ->
   PyStr.startswith_any (args_link args) ["http://"; "https://"] = false ->
   main host_str yt_dlp args w
   = (Raises (SystemExit 1), with_line w ("Error: Invalid URL format: " +:+ args_link args)))
  /\ (output_dir_available w (args_output args) = true ->
      PyStr.startswith_any (args_link args) ["http://"; "https://"] = true ->
      cookies_ok w (args_cookies args) = false ->
      exists w1,
        main host_str yt_dlp args w
        = (Raises (SystemExit 1),
           with_line w1 ("Error: Cookies file not found: " +:+ default "" (args_cookies args)))
        /\ OS.tree w1 = OS.tree w
        /\ (OS.stdout w1 = OS.stdout w \/ exists warning, OS.stdout w1 = OS.stdout w ++ [warning]))
  /\ (output_dir_available w (args_output args) = false ->
      main host_str yt_dlp args w
      = (Raises (SystemExit 1),
         with_line w ("Error: " +:+ host_str (OSError OS.ENOENT None)))).
Proof.
  intros P Q. apply choice_recognized in P. apply choice_quality in Q. split; [|split].
  - intros A U. destruct (choose_output_dir_available _ _ A) as [dir E].
    unfold main, try_except, bind. rewrite (new_bad_url _ _ _ _ _ _ _ _ _ _ E P U).
    reflexivity.
  - intros A U C. destruct (choose_output_dir_available _ _ A) as [dir E].
    eexists. split; [|split].
    + unfold main, try_except, bind.
      rewrite (new_bad_cookies _ _ _ _ _ _ _ _ _ _ E P U Q C). reflexivity.
    + apply after_validation_frame.
    + unfold after_validation. destruct (domain_matches _); cbn [OS.stdout]; eauto.
  - intros A. unfold main, try_except, bind.
    rewrite (new_no_directory _ _ _ _ _ _ _ _ _ _ (choose_output_dir_unavailable _ _ A)).
    reflexivity.
Qed.

Lemma main_validation_failures_witness :
  main sample_host_str None sample_args_no_scheme sample_world
  = (Raises (SystemExit 1),
     with_line sample_world "Error: Invalid URL format: x.com/u/status/1")
  /\ main sample_host_str None sample_args_no_scheme orphan_world
     = (Raises (SystemExit 1),
        with_line orphan_world "Error: [Errno 2] No such file or directory").
Proof.
  assert (P : In (args_platform sample_args_no_scheme) platform_choices)
    by (vm_compute; tauto).
  assert (Q : In (args_quality sample_args_no_scheme) quality_choices)
    by (vm_compute; tauto).
  split.
  - exact (proj1 (main_validation_failures sample_host_str None sample_args_no_scheme
                    sample_world P Q) eq_refl eq_refl).
  - exact (proj2 (proj2 (main_validation_failures sample_host_str None sample_args_no_scheme
                           orphan_world P Q)) eq_refl).
Defined.

(** X16: an output path that names an existing regular file.  Validation
    passes, then [mkdir] raises [FileExistsError]; the constructor lets it
    through, and so does [main], whose handlers cover [ValueError],
    [FileNotFoundError] and [KeyboardInterrupt] only. *)
Theorem output_path_is_a_file (host_str : exn -> string)
    (yt_dlp : option (gmap string ydl_value -> result YoutubeDL)) (args : Namespace)
    (output : string) (w : OS.world) :
  In (args_platform args) platform_choices ->
  In (args_quality args) quality_choices ->
  PyStr.startswith_any (args_link args) ["http://"; "https://"] = true ->
  cookies_ok w (args_cookies args) = true ->
  args_output args = Some output ->
  OS.isfile w output = true ->
  exists w1,
    new (args_platform args) (args_link args) (Some (args_quality args)) (Some output)
        (args_audio_only args) (args_filename args) (args_cookies args) (args_format args) w
    = (Raises (OSError OS.EEXIST (Some (PosixPath.str (PosixPath.Path output)))), w1)
    /\ main host_str yt_dlp args w
       = (Raises (OSError OS.EEXIST (Some (PosixPath.str (PosixPath.Path output)))), w1)
    /\ OS.tree w1 = OS.tree w.
Proof.
  intros P Q U C O F. apply choice_recognized in P. apply choice_quality in Q.
  assert (Z : PyStr.has_nul output = false).
  { unfold OS.isfile in F. destruct (PyStr.has_nul output); [discriminate F | reflexivity]. }
  assert (T : PyStr.truthy (Some output) = true).
  { unfold OS.isfile in F. rewrite Z in F. destruct output; [discriminate F | reflexivity]. }
  pose proof (choose_output_dir_given (Some output) w T) as E.
  change (default "" (Some output)) with output in E.
  set (self := assign (args_platform args) (args_link args) (Some (args_quality args))
                 (PosixPath.Path output) (args_audio_only args) (args_filename args)
                 (args_cookies args) (args_format args)).
  assert (N : new (args_platform args) (args_link args) (Some (args_quality args)) (Some output)
                  (args_audio_only args) (args_filename args) (args_cookies args)
                  (args_format args) w
              = (Raises (OSError OS.EEXIST (Some (PosixPath.str (PosixPath.Path output)))),
                 after_validation self w)).
  { rewrite (new_valid _ _ _ _ _ _ _ _ _ _ E P U Q C). fold self.
    unfold construct_after_validation, ensure_output_dir.
    change (VideoDownloader.output_dir self) with (PosixPath.Path output).
    rewrite Path_mkdir_on_file; [reflexivity | apply has_nul_Path, Z |].
    destruct (after_validation_frame self w) as (Tr & Cw & _).
    unfold OS.start_of. rewrite Tr, Cw, Path_is_absolute.
    unfold OS.isfile, OS.start_of in F. rewrite Z in F.
    destruct (PosixPath.is_name _); [|discriminate].
    destruct (OS.stat _ _ _) as [e|[]]; try discriminate. reflexivity. }
  eexists. split; [exact N |]. split; [|apply after_validation_frame].
  unfold main, try_except, bind. rewrite O, N. reflexivity.
Qed.

Lemma output_path_is_a_file_witness :
  exists w1,
    main sample_host_str None sample_args_file_output sample_world
    = (Raises (OSError OS.EEXIST (Some "cookies.txt")), w1).
Proof.
  destruct (output_path_is_a_file sample_host_str None sample_args_file_output
              "cookies.txt" sample_world) as (w1 & _ & M & _);
    try reflexivity; try (vm_compute; tauto).
  exists w1. exact M.
Defined.

(** X17: a missing library is noticed late.  Whenever the constructor
    returns, [main] without [yt_dlp] installed prints that the library is
    missing and exits with status 1, and by then the constructor has made sure
    that the output directory exists, creating it where it was missing. *)
Theorem missing_library_after_mkdir (host_str : exn -> string)
    (args : Namespace) (w w1 : OS.world) (self : t) :
  new (args_platform args) (args_link args) (Some (args_quality args)) (args_output args)
      (args_audio_only args) (args_filename args) (args_cookies args) (args_format args) w
  = (Returns self, w1) ->
  main host_str None args w
  = (Raises (SystemExit 1),
     with_line w1 "Error: yt-dlp is not installed. Please install it with: pip install yt-dlp")
  /\ OS.is_dir w1 (VideoDownloader.output_dir self) = true
  /\ OS.tree w ⊆ OS.tree w1.
Proof.
  intros N. split; [|split].
  - unfold main, try_except, bind. rewrite N. reflexivity.
  - exact (proj2 (proj2 (proj2 (proj2 (proj2 (new_returns_valid _ _ _ _ _ _ _ _ _ _ _ N)))))).
  - destruct (new_returns_steps _ _ _ _ _ _ _ _ _ _ _ N) as (dir & w0 & _ & _ & V & K).
    destruct (validate_frame _ _ _ _ V) as (T & _).
    destruct (ensure_returns _ _ _ K) as [_ (_ & _ & _ & S & _)].
    now rewrite <- T.
Qed.

Lemma missing_library_after_mkdir_witness :
  exists w1,
    main sample_host_str None sample_args_valid sample_world
    = (Raises (SystemExit 1),
       with_line w1
         "Error: yt-dlp is not installed. Please install it with: pip install yt-dlp")
    /\ OS.is_dir w1 (PosixPath.Path "videos") = true
    /\ OS.is_dir sample_world (PosixPath.Path "videos") = false.
Proof.
  destruct (new (args_platform sample_args_valid) (args_link sample_args_valid)
                (Some (args_quality sample_args_valid)) (args_output sample_args_valid)
                (args_audio_only sample_args_valid) (args_filename sample_args_valid)
                (args_cookies sample_args_valid) (args_format sample_args_valid) sample_world)
    as [[self|e] w1] eqn:N; [|vm_compute in N; discriminate].
  destruct (missing_library_after_mkdir sample_host_str sample_args_valid sample_world w1 self N)
    as (M & D & _).
  exists w1. split; [exact M |]. split; [|reflexivity].
  apply new_returns_self in N as (dir & E & ->).
  change (choose_output_dir (Some "videos") sample_world = (Returns dir, sample_world)) in E.
  rewrite (choose_output_dir_given (Some "videos") sample_world eq_refl) in E.
  injection E as <-. exact D.
Defined.

(* ===================================================================== *)
(** ** Beyond the claims: a few consequences *)
(* ===================================================================== *)

Section consequences.

Lemma lower_app (a b : string) : PyStr.lower (a +:+ b) = PyStr.lower a +:+ PyStr.lower b.
Proof.
  induction a as [|c a IH]; [reflexivity |].
  rewrite append_cons. cbn [PyStr.lower]. now rewrite IH, append_cons.
Qed.

(** The domains of [PLATFORMS] are written in lower case. *)
Lemma platform_domain_lower (p d : string) (domains : list string) :
  getitem PLATFORMS p = Some domains -> In d domains -> PyStr.lower d = d.
Proof.
  unfold PLATFORMS. cbn [getitem].
  repeat (destruct (String.eqb p _);
          [intros [= <-]; simpl; intros H; repeat destruct H as [<-|H]; try reflexivity;
           contradiction |]).
  discriminate.
Qed.

(** Every path the computation yields is absolute. *)
Lemma final_path_is_absolute (self : t) (ydl : YoutubeDL)
    (info : option (gmap string info_value)) (w w' : OS.world) (p : PosixPath.t) :
  final_path self ydl info w = (Returns p, w') -> PosixPath.is_absolute p = true.
Proof.
  unfold final_path, bind, lift, ret.
  destruct (PyStr.truthy (filename self)).
  - destruct (audio_only self);
      [|destruct (PyStr.truthy (format self));
        [|destruct (info_get_ext info) as [i|e]; [|discriminate]]];
      cbv beta iota;
      match goal with
      | |- context [str_add ?a ?b] => destruct (str_add a b) as [f|e]; [|discriminate]
      end; intros P; exact (proj1 (Path_absolute_returns _ _ _ _ P)).
  - destruct (prepare_filename ydl info) as [fn|e]; [|discriminate].
    destruct (audio_only self); [|destruct (PyStr.truthy (format self))];
      intros P; exact (proj1 (Path_absolute_returns _ _ _ _ P)).
Qed.

Lemma stat_mono (t t' : gmap (list string) OS.node) (start parts : list string) (n : OS.node) :
  t ⊆ t' -> OS.stat t start parts = inr n -> OS.stat t' start parts = inr n.
Proof.
  intros S. destruct parts as [|c init _] using rev_ind.
  - rewrite !stat_nil. trivial.
  - rewrite !stat_snoc. destruct (OS.resolve t start init) as [e|d] eqn:R; [discriminate |].
    rewrite (resolve_mono _ _ _ _ _ S R).
    destruct (OS.lookup_node t (OS.step d c)) as [m|] eqn:L; [|discriminate].
    now rewrite (lookup_node_mono _ _ _ _ S L).
Qed.

Lemma isfile_mono (w w1 : OS.world) (s : string) :
  OS.tree w ⊆ OS.tree w1 -> OS.cwd w1 = OS.cwd w ->
  OS.isfile w s = true -> OS.isfile w1 s = true.
Proof.
  intros S C. unfold OS.isfile, OS.start_of. rewrite C.
  destruct (PyStr.has_nul s); [trivial |].
  destruct (PosixPath.is_name _); [|trivial].
  destruct (OS.stat (OS.tree w) _ _) as [e|[]] eqn:St; try discriminate.
  now rewrite (stat_mono _ _ _ _ _ S St).
Qed.

(** Line 48 takes the same directory once the tree has grown. *)
Lemma choose_output_dir_mono (output_dir : option string) (w w1 : OS.world)
    (dir : PosixPath.t) :
  OS.tree w ⊆ OS.tree w1 -> OS.cwd w1 = OS.cwd w ->
  choose_output_dir output_dir w = (Returns dir, w) ->
  choose_output_dir output_dir w1 = (Returns dir, w1).
Proof.
  intros S C. unfold choose_output_dir, Path_cwd, ret, OS.getcwd.
  destruct (PyStr.truthy output_dir); [now intros [= <-] |].
  rewrite C. destruct (OS.lookup_node (OS.tree w) (OS.cwd w)) as [[]|] eqn:L; try discriminate.
  rewrite (lookup_node_mono _ _ _ _ S L). now intros [= <-].
Qed.

End consequences.

(** X18: the domain check is a substring test on the lower-cased link: a
    link that has one of the platform's domains anywhere in it, in the query
    string for instance, passes validation without a warning. *)
Theorem domain_check_is_a_substring_test (self : t) (w : OS.world)
    (domains : list string) (d pre post : string) :
  getitem PLATFORMS (platform self) = Some domains ->
  In d domains ->
  link self = pre +:+ d +:+ post ->
  PyStr.startswith_any (link self) ["http://"; "https://"] = true ->
  In (quality self) QUALITY_OPTIONS ->
  cookies_ok w (cookies self) = true ->
  _validate_inputs self w = (Returns tt, w).
Proof.
  intros G D L U Q C.
  assert (P : In (platform self) recognized_platforms).
  { apply str_in_spec. change recognized_platforms with (keys PLATFORMS).
    revert G. unfold PLATFORMS, str_in. cbn [getitem keys map fst existsb].
    repeat (destruct (String.eqb (platform self) _); [reflexivity |]). discriminate. }
  rewrite (validate_passes self w P U Q C).
  unfold after_validation, domain_matches. rewrite G. change (default [] (Some domains)) with domains.
  replace (existsb _ domains) with true; [reflexivity |].
  symmetry. apply existsb_exists. exists d. split; [exact D |].
  rewrite L, !lower_app, (platform_domain_lower _ _ _ G D). apply contains_middle.
Qed.

(** A link to another site that mentions [youtube.com] in its query. *)
Lemma domain_check_is_a_substring_test_witness :
  _validate_inputs sample_other_site sample_world = (Returns tt, sample_world).
Proof.
  apply (domain_check_is_a_substring_test sample_other_site sample_world
           ["youtube.com"; "youtu.be"]
           "youtube.com" "https://example.org/watch?next=" "/abc");
    try reflexivity; vm_compute; tauto.
Defined.

(** X19: every path [download] returns is absolute: it starts with a
    slash. *)
Theorem returned_path_is_absolute (host_str : exn -> string)
    (yt_dlp : option (gmap string ydl_value -> result YoutubeDL)) (self : t)
    (suppress_output : bool) (w w' : OS.world) (path : string) :
  download host_str yt_dlp self suppress_output w = (Returns path, w') ->
  String.prefix "/" path = true.
Proof.
  intros N.
  apply download_returns in N as (mk & ydl & info & p & w0 & _ & _ & _ & _ & _ & _ & P & -> & _).
  apply str_of_absolute, (final_path_is_absolute _ _ _ _ _ _ P).
Qed.

Lemma returned_path_is_absolute_witness :
  exists w',
    download sample_host_str (Some (fun _ => Returns sample_ydl)) sample_720 false sample_world
    = (Returns "/home/u/video.mkv", w')
    /\ String.prefix "/" "/home/u/video.mkv" = true.
Proof.
  destruct (download sample_host_str (Some (fun _ => Returns sample_ydl)) sample_720 false
              sample_world) as [r w'] eqn:N.
  assert (R : r = Returns "/home/u/video.mkv") by (vm_compute in N; congruence).
  subst r. exists w'. split; [reflexivity |].
  exact (returned_path_is_absolute sample_host_str (Some (fun _ => Returns sample_ydl))
           sample_720 false sample_world w' "/home/u/video.mkv" N).
Defined.

(** X20: constructing twice changes the disk once.  After the constructor
    has returned, the same call in the resulting world returns the same
    instance and leaves the file tree as it is. *)
Theorem construction_is_idempotent_on_disk (platform link : string)
    (quality output_dir : option string) (audio_only : bool)
    (filename cookies format : option string) (w w1 : OS.world) (self : t) :
  new platform link quality output_dir audio_only filename cookies format w = (Returns self, w1) ->
  exists w2,
    new platform link quality output_dir audio_only filename cookies format w1
    = (Returns self, w2)
    /\ OS.tree w2 = OS.tree w1.
Proof.
  intros N.
  destruct (new_returns_valid _ _ _ _ _ _ _ _ _ _ _ N) as (P & U & Q & C & _ & D).
  destruct (new_returns_steps _ _ _ _ _ _ _ _ _ _ _ N) as (dir & w0 & E & S & V & K).
  destruct (validate_frame _ _ _ _ V) as (T0 & C0 & _).
  destruct (ensure_returns _ _ _ K) as [_ (C1 & _ & _ & S1 & _)].
  rewrite T0 in S1. rewrite C0 in C1.
  assert (P' : In (_normalize_platform platform) recognized_platforms).
  { subst self. cbn [assign VideoDownloader.platform] in P. simpl in P. simpl. tauto. }
  assert (U' : PyStr.startswith_any link ["http://"; "https://"] = true) by (now subst self).
  assert (Q' : In (PyStr.or_else quality "best") QUALITY_OPTIONS) by (now subst self).
  assert (C' : cookies_ok w cookies = true) by (now subst self).
  assert (Cw : cookies_ok w1 cookies = true).
  { unfold cookies_ok in *. destruct (negb (PyStr.truthy cookies)); [reflexivity |].
    cbn [orb] in *. exact (isfile_mono _ _ _ S1 C1 C'). }
  pose proof (choose_output_dir_mono _ _ _ _ S1 C1 E) as E1.
  rewrite (new_valid _ _ _ _ _ _ _ _ _ _ E1 P' U' Q' Cw), <- S.
  rewrite (construct_existing self w1 D).
  eexists. split; [reflexivity | apply after_validation_frame].
Qed.

Lemma construction_is_idempotent_on_disk_witness :
  exists self w1 w2,
    new "youtube" "https://youtu.be/abc" None (Some "a/b") false None (Some "cookies.txt") None
        sample_world = (Returns self, w1)
    /\ new "youtube" "https://youtu.be/abc" None (Some "a/b") false None (Some "cookies.txt")
           None w1 = (Returns self, w2)
    /\ OS.tree w2 = OS.tree w1.
Proof.
  destruct (new "youtube" "https://youtu.be/abc" None (Some "a/b") false None
                (Some "cookies.txt") None sample_world) as [[self|e] w1] eqn:N;
    [|vm_compute in N; discriminate].
  destruct (construction_is_idempotent_on_disk _ _ _ _ _ _ _ _ _ _ _ N) as (w2 & N2 & T).
  exists self, w1, w2. auto.
Defined.
